(** * Admin authorization and network-abuse guard: a shallow embedding

    The development follows [server/routes/admin.ts] (the privileged
    endpoints), the [verifyAdmin] gate shown in [SECURITY.md], and the
    IP-detection handlers ([handleCheckIPBan], [handleCheckIPLimit],
    [handleRecordUserIP], [handleUpdateUserIPLogin]).

    Conventions.
    - A JavaScript string is a [string]; its characters stand for UTF-16
      code units below 256, and [String.length] is [.length].
    - Asynchronous calls are run to completion, one request at a time.
    - The identity provider, the validation library's IP matcher and the
      methods of [FirebaseAdminService] other than [verifyAdmin] are not
      part of the sources; they are fields of an environment [Env].
    - In the privileged endpoints store accesses do not fail; in the
      IP-detection handlers a write fails when the store is down, and a
      name imported from a package that does not export it is
      [undefined], so that calling it throws. *)

From Stdlib Require Import ZArith Ascii String List Bool Lia.
From stdpp Require Import base option list strings gmap.

Local Open Scope string_scope.
Local Open Scope Z_scope.

(* ===================================================================== *)
(** ** JavaScript values and strings *)
(* ===================================================================== *)

Module Js.

(** A JSON / Firestore field value, as far as the handlers look at it. *)
Inductive value : Type :=
| undefined
| null
| boolean (b : bool)
| number (z : Z)        (* an integer-valued number *)
| fraction              (* any other number except NaN *)
| nan
| str (s : string)
| object.               (* arrays, maps, timestamps, ... *)

(** [!!v]: the values that count as true in a condition. *)
Definition truthy (v : value) : bool :=
  match v with
  | undefined | null | nan => false
  | boolean b => b
  | number z => negb (z =? 0)
  | fraction => true
  | str s => negb (String.eqb s "")
  | object => true
  end.

(** White space and line terminators stripped by [String.prototype.trim]
    (those below 256). *)
Definition is_white_space (c : ascii) : bool :=
  let n := nat_of_ascii c in
  Nat.eqb n 9 || Nat.eqb n 10 || Nat.eqb n 11 || Nat.eqb n 12
  || Nat.eqb n 13 || Nat.eqb n 32 || Nat.eqb n 160.

Fixpoint trimStart (s : string) : string :=
  match s with
  | EmptyString => EmptyString
  | String c s' => if is_white_space c then trimStart s' else s
  end.

Fixpoint trimEnd (s : string) : string :=
  match s with
  | EmptyString => EmptyString
  | String c s' =>
      let t := trimEnd s' in
      if is_white_space c && String.eqb t "" then EmptyString
      else String c t
  end.

Definition trim (s : string) : string := trimEnd (trimStart s).

(** [s.startsWith(p)] *)
Definition startsWith (p s : string) : bool := String.prefix p s.

(** [s.slice(n)] for [0 <= n]. *)
Fixpoint slice (n : nat) (s : string) : string :=
  match n, s with
  | O, _ => s
  | S n', String _ s' => slice n' s'
  | S _, EmptyString => EmptyString
  end.

(** An optional-chained string of a request ([undefined] is [None]):
    [!s] holds for a missing and for an empty string. *)
Definition falsy_string (s : option string) : bool :=
  match s with
  | None => true
  | Some s => String.eqb s ""
  end.

(** [!n] for an optional integer-valued number. *)
Definition falsy_number (n : option Z) : bool :=
  match n with
  | None => true
  | Some z => z =? 0
  end.

End Js.

(* ===================================================================== *)
(** ** The validation library, as far as the schemas use it *)
(* ===================================================================== *)

Module Zod.

Inductive IpVersion := v4 | v6.

(** The checks of a string schema, in the order they were chained. *)
Inductive StringCheck : Type :=
| ck_min (n : nat)
| ck_max (n : nat)
| ck_regex (re : string -> bool)
| ck_trim
| ck_ip (version : IpVersion).

Record issue := Issue { path : string; code : string }.

Definition when (b : bool) (i : issue) : list issue :=
  if b then [i] else [].

Section Checks.
(** The library's address matcher. *)
Variable isValidIP : IpVersion -> string -> bool.

(** The loop of the string parser: the checks run in chaining order
    over the current data; [trim] replaces the data, the others
    report an issue when they fail. *)
Fixpoint run_checks (p : string) (cs : list StringCheck) (data : string)
  : list issue * string :=
  match cs with
  | [] => ([], data)
  | ck_min n :: cs' =>
      let '(errs, d) := run_checks p cs' data in
      (app (when (String.length data <? n)%nat (Issue p "too_small")) errs, d)
  | ck_max n :: cs' =>
      let '(errs, d) := run_checks p cs' data in
      (app (when (n <? String.length data)%nat (Issue p "too_big")) errs, d)
  | ck_regex re :: cs' =>
      let '(errs, d) := run_checks p cs' data in
      (app (when (negb (re data)) (Issue p "invalid_string")) errs, d)
  | ck_trim :: cs' => run_checks p cs' (Js.trim data)
  | ck_ip v :: cs' =>
      let '(errs, d) := run_checks p cs' data in
      (app (when (negb (isValidIP v data)) (Issue p "invalid_string")) errs, d)
  end.

(** [z.string()....] applied to a field. *)
Definition string_ (cs : list StringCheck) (p : string) (v : Js.value)
  : list issue + string :=
  match v with
  | Js.str s =>
      match run_checks p cs s with
      | ([], d) => inr d
      | (errs, _) => inl errs
      end
  | _ => inl [Issue p "invalid_type"]
  end.

(** [a.or(b)] for two string schemas: the first option that accepts the
    value. When neither does, a string, which both options parsed and
    found wanting, is refused with the issues of the first option, and
    a value of another type with an [invalid_union] issue. *)
Definition or {A} (a b : string -> Js.value -> list issue + A)
           (p : string) (v : Js.value) : list issue + A :=
  match a p v with
  | inr x => inr x
  | inl ia =>
      match b p v with
      | inr y => inr y
      | inl _ =>
          match v with
          | Js.str _ => inl ia
          | _ => inl [Issue p "invalid_union"]
          end
      end
  end.
End Checks.

(** [z.number().int().min(lo).max(hi)]. The value of a number that is
    not an integer is not kept, so of the issues of such a number only
    the one of [int()] is listed. *)
Definition int_range (lo hi : Z) (p : string) (v : Js.value)
  : list issue + Z :=
  match v with
  | Js.number z =>
      match app (when (z <? lo) (Issue p "too_small"))
                (when (hi <? z) (Issue p "too_big")) with
      | [] => inr z
      | errs => inl errs
      end
  | Js.fraction => inl [Issue p "invalid_type"]
  | _ => inl [Issue p "invalid_type"]
  end.

(** [z.enum([...])] *)
Definition enum (vs : list string) (p : string) (v : Js.value)
  : list issue + string :=
  match v with
  | Js.str s =>
      if bool_decide (s ∈ vs) then inr s
      else inl [Issue p "invalid_enum_value"]
  | _ => inl [Issue p "invalid_type"]
  end.

(** Two fields of an object schema: the object is accepted when both
    are, and otherwise carries the issues of every failing field. *)
Definition both {A B} (a : list issue + A) (b : list issue + B)
  : list issue + (A * B) :=
  match a, b with
  | inr x, inr y => inr (x, y)
  | inl i, inr _ => inl i
  | inr _, inl j => inl j
  | inl i, inl j => inl (app i j)
  end.

Definition map_ok {A B} (f : A -> B) (a : list issue + A) : list issue + B :=
  match a with
  | inr x => inr (f x)
  | inl i => inl i
  end.

(** [body.key], [undefined] when the key is missing. *)
Definition field (body : gmap string Js.value) (k : string) : Js.value :=
  default Js.undefined (body !! k).

End Zod.

(* ===================================================================== *)
(** ** The document store *)
(* ===================================================================== *)

Module Firestore.

(** A collection whose queries are scanned in order: the documents with
    their identifiers, in ascending identifier order. *)
Definition collection (A : Type) : Type := list (string * A).

Section Ops.
Context {A : Type}.

(** [query(ref, where(...))]: the matching documents, in order. *)
Definition where_ (P : A -> bool) (c : collection A) : collection A :=
  List.filter (fun e => P (snd e)) c.

(** [ref.doc(id).set(d)]: create, or overwrite the document [id]. *)
Fixpoint set (id : string) (d : A) (c : collection A) : collection A :=
  match c with
  | [] => [(id, d)]
  | (i, x) :: c' =>
      if String.eqb id i then (id, d) :: c'
      else if String.ltb id i then (id, d) :: (i, x) :: c'
      else (i, x) :: set id d c'
  end.

(** [doc.ref.delete()] *)
Definition delete (id : string) (c : collection A) : collection A :=
  List.filter (fun e => negb (String.eqb (fst e) id)) c.

(** [doc.ref.update(fields)] *)
Definition update (id : string) (f : A -> A) (c : collection A)
  : collection A :=
  List.map (fun e => if String.eqb (fst e) id then (fst e, f (snd e)) else e) c.

Definition ids (c : collection A) : list string := List.map fst c.
End Ops.

End Firestore.

(** [interface IPBan] (the [id] is the document's key). *)
Module IPBan.
Record t := Build {
  ipAddress : string;
  reason : string;
  bannedAt : Z;
  expiresAt : option Z   (* milliseconds, as [toDate()] gives them *)
}.
End IPBan.

(** [interface UserIP]; the login path writes no [email] field. *)
Module UserIP.
Record t := Build {
  userId : string;
  ipAddress : string;
  email : option string;
  recordedAt : Z;
  lastUsed : Z
}.

Definition touch (now : Z) (d : t) : t :=
  Build (userId d) (ipAddress d) (email d) (recordedAt d) now.
End UserIP.

Record Store := mkStore {
  users : gmap string (gmap string Js.value);
  ip_bans : Firestore.collection IPBan.t;
  user_ips : Firestore.collection UserIP.t
}.

Definition with_ip_bans (c : Firestore.collection IPBan.t) (s : Store) : Store :=
  mkStore (users s) c (user_ips s).

Definition with_user_ips (c : Firestore.collection UserIP.t) (s : Store) : Store :=
  mkStore (users s) (ip_bans s) c.

(* ===================================================================== *)
(** ** Responses *)
(* ===================================================================== *)

Inductive rvalue : Type :=
| r_null
| r_bool (b : bool)
| r_num (z : Z)
| r_text (s : string)
| r_date (ms : Z)
| r_issues (issues : list Zod.issue)   (* the message of a ZodError *)
| r_users (us : list (gmap string Js.value)).

Record response := Response {
  status : Z;
  body : list (string * rvalue)
}.

(** [res.json(b)] and [res.status(n).json(b)] *)
Definition json (b : list (string * rvalue)) : response := Response 200 b.
Definition status_json (n : Z) (b : list (string * rvalue)) : response :=
  Response n b.

(* ===================================================================== *)
(** ** The privileged endpoints ([server/routes/admin.ts]) *)
(* ===================================================================== *)

Module Admin.

(** What a handler's [catch] can receive. *)
Inductive exn : Type :=
| ZodError (issues : list Zod.issue)
| Error (message : string)
| Thrown.                         (* a value that is not an [Error] *)

(** [error instanceof z.ZodError] *)
Definition is_ZodError (e : exn) : bool :=
  match e with ZodError _ => true | _ => false end.

(** [error instanceof Error && error.message === m] *)
Definition is_Error_with (m : string) (e : exn) : bool :=
  match e with Error m' => String.eqb m' m | _ => false end.

(** [error instanceof Error ? error.message : fallback] *)
Definition message_or (fallback : string) (e : exn) : rvalue :=
  match e with
  | ZodError issues => r_issues issues
  | Error m => r_text m
  | Thrown => r_text fallback
  end.

(** Calls that leave the handler: the identity provider, the store,
    and the service methods. *)
Inductive event : Type :=
| auth_verifyIdToken (idToken : string)
| users_doc_get (uid : string)
| svc_banUser (adminUid userId reason : string) (duration : Z)
| svc_getAllUsers
| svc_createLicense (adminUid plan : string) (validityDays : Z)
| svc_banIP (adminUid ipAddress reason : string) (duration : Z)
| svc_deleteUser (adminUid userId : string).

(** The collaborators that are not in the sources. *)
Record Env := mkEnv {
  isValidIP : Zod.IpVersion -> string -> bool;
  verifyIdToken : string -> exn + string;   (* the decoded token's uid *)
  banUser : string -> string -> string -> Z -> Store -> (exn + string) * Store;
  getAllUsers : Store -> (exn + list (gmap string Js.value)) * Store;
  createLicense : string -> string -> Z -> Store -> (exn + string) * Store;
  banIP : string -> string -> string -> Z -> Store -> (exn + string) * Store;
  deleteUser : string -> string -> Store -> (exn + unit) * Store
}.

(** Computations that may throw, change the store and call out. *)
Definition M (A : Type) : Type := Store -> list event * Store * (exn + A).

Definition ret {A} (a : A) : M A := fun s => ([], s, inr a).
Definition throw {A} (e : exn) : M A := fun s => ([], s, inl e).
Definition bind {A B} (m : M A) (k : A -> M B) : M B :=
  fun s =>
    match m s with
    | (t, s', inl e) => (t, s', inl e)
    | (t, s', inr a) =>
        let '(t', s'', r) := k a s' in (app t t', s'', r)
    end.

(** [try { m } catch (error) { h error }] around a handler body. *)
Definition try_catch (m : M response) (h : exn -> response)
  : Store -> list event * Store * response :=
  fun s =>
    match m s with
    | (t, s', inr r) => (t, s', r)
    | (t, s', inl e) => (t, s', h e)
    end.

Declare Scope admin_scope.
Delimit Scope admin_scope with admin.
Notation "'let*' x ':=' m 'in' k" := (bind m (fun x => k))
  (at level 10, x name, m at level 100, k at level 200) : admin_scope.

(** A step that returns or throws without touching anything. *)
Definition lift {A} (r : exn + A) : M A :=
  match r with
  | inr a => ret a
  | inl e => throw e
  end.

(** [Schema.parse(req.body)] *)
Definition parse {A} (r : list Zod.issue + A) : M A :=
  match r with
  | inr a => ret a
  | inl issues => throw (ZodError issues)
  end.

(** [/^[A-Za-z0-9_\-\.]+$/] *)
Definition token_char (c : ascii) : bool :=
  let n := nat_of_ascii c in
  (Nat.leb 65 n && Nat.leb n 90) || (Nat.leb 97 n && Nat.leb n 122)
  || (Nat.leb 48 n && Nat.leb n 57)
  || Nat.eqb n 95 || Nat.eqb n 45 || Nat.eqb n 46.

Definition token_format (s : string) : bool :=
  negb (String.eqb s "") && forallb token_char (list_ascii_of_string s).

(** [z.string().min(10).max(3000).regex(...)] *)
Definition idToken_checks : list Zod.StringCheck :=
  [Zod.ck_min 10; Zod.ck_max 3000; Zod.ck_regex token_format].

(** [z.string().min(10).max(100)] *)
Definition userId_checks : list Zod.StringCheck :=
  [Zod.ck_min 10; Zod.ck_max 100].

(** [z.string().min(5).max(500).trim()] *)
Definition reason_checks : list Zod.StringCheck :=
  [Zod.ck_min 5; Zod.ck_max 500; Zod.ck_trim].

Record VerifyAdminInput := mkVerifyAdmin { va_idToken : string }.

Record BanUserInput := mkBanUser {
  bu_idToken : string; bu_userId : string;
  bu_reason : string; bu_duration : Z
}.

Record CreateLicenseInput := mkCreateLicense {
  cl_idToken : string; cl_plan : string; cl_validityDays : Z
}.

Record BanIPInput := mkBanIP {
  bi_idToken : string; bi_ipAddress : string;
  bi_reason : string; bi_duration : Z
}.

Record DeleteUserInput := mkDeleteUser {
  du_idToken : string; du_userId : string
}.

Record Request := mkRequest {
  req_body : gmap string Js.value;
  authorization : option string     (* [req.headers.authorization] *)
}.

Section Handlers.
Variable E : Env.

Local Open Scope admin_scope.

Definition zstring := Zod.string_ (isValidIP E).

Definition VerifyAdminSchema (b : gmap string Js.value)
  : list Zod.issue + VerifyAdminInput :=
  Zod.map_ok mkVerifyAdmin
    (zstring idToken_checks "idToken" (Zod.field b "idToken")).

Definition BanUserSchema (b : gmap string Js.value)
  : list Zod.issue + BanUserInput :=
  Zod.map_ok (fun '(t, u, r, d) => mkBanUser t u r d)
    (Zod.both (Zod.both (Zod.both
      (zstring idToken_checks "idToken" (Zod.field b "idToken"))
      (zstring userId_checks "userId" (Zod.field b "userId")))
      (zstring reason_checks "reason"
               (Zod.field b "reason")))
      (Zod.int_range 1 36500 "duration" (Zod.field b "duration"))).

Definition CreateLicenseSchema (b : gmap string Js.value)
  : list Zod.issue + CreateLicenseInput :=
  Zod.map_ok (fun '(t, p, d) => mkCreateLicense t p d)
    (Zod.both (Zod.both
      (zstring idToken_checks "idToken" (Zod.field b "idToken"))
      (Zod.enum ["Free"; "Classic"; "Pro"] "plan" (Zod.field b "plan")))
      (Zod.int_range 1 3650 "validityDays" (Zod.field b "validityDays"))).

Definition BanIPSchema (b : gmap string Js.value)
  : list Zod.issue + BanIPInput :=
  Zod.map_ok (fun '(t, a, r, d) => mkBanIP t a r d)
    (Zod.both (Zod.both (Zod.both
      (zstring idToken_checks "idToken" (Zod.field b "idToken"))
      (Zod.or (zstring [Zod.ck_ip Zod.v4]) (zstring [Zod.ck_ip Zod.v6])
              "ipAddress" (Zod.field b "ipAddress")))
      (zstring reason_checks "reason"
               (Zod.field b "reason")))
      (Zod.int_range 1 36500 "duration" (Zod.field b "duration"))).

(** The schema written inline in [handleDeleteUser]. *)
Definition DeleteUserSchema (b : gmap string Js.value)
  : list Zod.issue + DeleteUserInput :=
  Zod.map_ok (fun '(t, u) => mkDeleteUser t u)
    (Zod.both
      (zstring idToken_checks "idToken" (Zod.field b "idToken"))
      (zstring userId_checks "userId" (Zod.field b "userId"))).

(** [auth.verifyIdToken(idToken)], giving [decodedToken.uid]. *)
Definition auth_verify (idToken : string) : M string :=
  fun s => ([auth_verifyIdToken idToken], s, verifyIdToken E idToken).

(** [db.collection("users").doc(uid).get()] *)
Definition users_get (uid : string) : M (option (gmap string Js.value)) :=
  fun s => ([users_doc_get uid], s, inr (users s !! uid)).

(** [userDoc.exists] and [userDoc.data()?.isAdmin] *)
Definition doc_exists (userDoc : option (gmap string Js.value)) : bool :=
  match userDoc with Some _ => true | None => false end.

Definition doc_isAdmin (userDoc : option (gmap string Js.value)) : Js.value :=
  match userDoc with
  | Some data => default Js.undefined (data !! "isAdmin")
  | None => Js.undefined
  end.

Definition NotAdmin : exn := Error "Unauthorized: Not an admin".

Definition verifyAdmin (idToken : string) : M string :=
  let* uid := auth_verify idToken in
  let* userDoc := users_get uid in
  if negb (doc_exists userDoc) || negb (Js.truthy (doc_isAdmin userDoc))
  then throw NotAdmin
  else ret uid.

(** The service methods, with the call recorded. *)
Definition call {A} (ev : event) (f : Store -> (exn + A) * Store) : M A :=
  fun s => let '(r, s') := f s in ([ev], s', r).

Definition handleVerifyAdmin (req : Request) :=
  try_catch
    (let* validated := parse (VerifyAdminSchema (req_body req)) in
     let* adminUid := verifyAdmin (va_idToken validated) in
     ret (json [("success", r_bool true); ("adminUid", r_text adminUid)]))
    (fun error =>
       let status := if is_ZodError error then 400 else 401 in
       status_json status
         [("error", r_text "Unauthorized");
          ("message", message_or "Verification failed" error)]).

Definition handleBanUser (req : Request) :=
  try_catch
    (let* validated := parse (BanUserSchema (req_body req)) in
     let* adminUid := verifyAdmin (bu_idToken validated) in
     let* banId := call (svc_banUser adminUid (bu_userId validated)
                      (bu_reason validated) (bu_duration validated))
                   (banUser E adminUid (bu_userId validated)
                      (bu_reason validated) (bu_duration validated)) in
     ret (json [("success", r_bool true); ("banId", r_text banId)]))
    (fun error =>
       let status :=
         if is_ZodError error || is_Error_with "User not found" error
         then 400 else 401 in
       status_json status
         [("error", r_text "Failed to ban user");
          ("message", message_or "Operation failed" error)]).

(** The first statements of [handleGetAllUsers]: the token is taken
    from the [Authorization] header. *)
Definition bearerToken (req : Request) : exn + string :=
  match authorization req with
  | Some authHeader =>
      if Js.startsWith "Bearer " authHeader
      then
        let idToken := Js.trim (Js.slice 7 authHeader) in
        if String.eqb idToken ""
           || (String.length idToken <? 10)%nat
           || (3000 <? String.length idToken)%nat
        then inl (Error "Invalid token format")
        else inr idToken
      else inl (Error "Missing or invalid authorization header")
  | None => inl (Error "Missing or invalid authorization header")
  end.

Definition handleGetAllUsers (req : Request) :=
  try_catch
    (let* idToken := lift (bearerToken req) in
     let* _ := verifyAdmin idToken in
     let* us := call svc_getAllUsers (getAllUsers E) in
     ret (json [("success", r_bool true); ("users", r_users us)]))
    (fun error =>
       status_json 401
         [("error", r_text "Unauthorized");
          ("message", message_or "Operation failed" error)]).

Definition handleCreateLicense (req : Request) :=
  try_catch
    (let* validated := parse (CreateLicenseSchema (req_body req)) in
     let* adminUid := verifyAdmin (cl_idToken validated) in
     let* licenseKey := call (svc_createLicense adminUid (cl_plan validated)
                           (cl_validityDays validated))
                        (createLicense E adminUid (cl_plan validated)
                           (cl_validityDays validated)) in
     ret (json [("success", r_bool true); ("licenseKey", r_text licenseKey)]))
    (fun error =>
       let status := if is_ZodError error then 400 else 401 in
       status_json status
         [("error", r_text "Failed to create license");
          ("message", message_or "Operation failed" error)]).

Definition handleBanIP (req : Request) :=
  try_catch
    (let* validated := parse (BanIPSchema (req_body req)) in
     let* adminUid := verifyAdmin (bi_idToken validated) in
     let* banId := call (svc_banIP adminUid (bi_ipAddress validated)
                      (bi_reason validated) (bi_duration validated))
                   (banIP E adminUid (bi_ipAddress validated)
                      (bi_reason validated) (bi_duration validated)) in
     ret (json [("success", r_bool true); ("banId", r_text banId)]))
    (fun error =>
       let status := if is_ZodError error then 400 else 401 in
       status_json status
         [("error", r_text "Failed to ban IP");
          ("message", message_or "Operation failed" error)]).

Definition handleDeleteUser (req : Request) :=
  try_catch
    (let* validated := parse (DeleteUserSchema (req_body req)) in
     let* adminUid := verifyAdmin (du_idToken validated) in
     let* _ := call (svc_deleteUser adminUid (du_userId validated))
               (deleteUser E adminUid (du_userId validated)) in
     ret (json [("success", r_bool true)]))
    (fun error =>
       let status := if is_ZodError error then 400 else 401 in
       status_json status
         [("error", r_text "Failed to delete user");
          ("message", message_or "Operation failed" error)]).

End Handlers.

(** The six endpoints, to state properties of all of them at once. *)
Inductive endpoint : Type :=
| VerifyAdmin | BanUser | GetAllUsers | CreateLicense | BanIP | DeleteUser.

Definition handler (E : Env) (ep : endpoint) (req : Request)
  : Store -> list event * Store * response :=
  match ep with
  | VerifyAdmin => handleVerifyAdmin E req
  | BanUser => handleBanUser E req
  | GetAllUsers => handleGetAllUsers E req
  | CreateLicense => handleCreateLicense E req
  | BanIP => handleBanIP E req
  | DeleteUser => handleDeleteUser E req
  end.

(** The endpoints that validate the body with a schema, and among them
    the four moderation operations. *)
Definition has_schema (ep : endpoint) : bool :=
  match ep with GetAllUsers => false | _ => true end.

Definition moderation (ep : endpoint) : bool :=
  match ep with
  | BanUser | CreateLicense | BanIP | DeleteUser => true
  | VerifyAdmin | GetAllUsers => false
  end.

(** The [error] label of an endpoint's failure response. *)
Definition error_label (ep : endpoint) : string :=
  match ep with
  | VerifyAdmin | GetAllUsers => "Unauthorized"
  | BanUser => "Failed to ban user"
  | CreateLicense => "Failed to create license"
  | BanIP => "Failed to ban IP"
  | DeleteUser => "Failed to delete user"
  end.

(** The token an endpoint hands to [verifyAdmin], when the request gets
    that far. *)
Definition accepted_token (E : Env) (ep : endpoint) (req : Request)
  : option string :=
  let of_schema {A} (r : list Zod.issue + A) (tok : A -> string) :=
    match r with inr v => Some (tok v) | inl _ => None end in
  match ep with
  | VerifyAdmin => of_schema (VerifyAdminSchema E (req_body req)) va_idToken
  | BanUser => of_schema (BanUserSchema E (req_body req)) bu_idToken
  | CreateLicense => of_schema (CreateLicenseSchema E (req_body req)) cl_idToken
  | BanIP => of_schema (BanIPSchema E (req_body req)) bi_idToken
  | DeleteUser => of_schema (DeleteUserSchema E (req_body req)) du_idToken
  | GetAllUsers =>
      match bearerToken req with inr tok => Some tok | inl _ => None end
  end.

(** The token contract: charset [[A-Za-z0-9_\-.]], length 10 to 3000. *)
Definition token_ok (t : string) : bool :=
  (10 <=? String.length t)%nat && (String.length t <=? 3000)%nat
  && token_format t.

(** The admin a service call is made for. *)
Definition attributed (ev : event) : option string :=
  match ev with
  | svc_banUser adminUid _ _ _ => Some adminUid
  | svc_createLicense adminUid _ _ => Some adminUid
  | svc_banIP adminUid _ _ _ => Some adminUid
  | svc_deleteUser adminUid _ => Some adminUid
  | _ => None
  end.

(** What an endpoint's [catch] block answers to [error]. *)
Definition failure_status (ep : endpoint) (error : exn) : Z :=
  match ep with
  | GetAllUsers => 401
  | BanUser =>
      if is_ZodError error || is_Error_with "User not found" error
      then 400 else 401
  | _ => if is_ZodError error then 400 else 401
  end.

Definition fallback (ep : endpoint) : string :=
  match ep with
  | VerifyAdmin => "Verification failed"
  | _ => "Operation failed"
  end.

Definition failure (ep : endpoint) (error : exn) : response :=
  status_json (failure_status ep error)
    [("error", r_text (error_label ep));
     ("message", message_or (fallback ep) error)].

(** Whether an endpoint goes on to a service method after the gate. *)
Definition calls_service (ep : endpoint) : bool :=
  match ep with VerifyAdmin => false | _ => true end.

(** The gate's verdict on a verified subject. *)
Definition is_admin (s : Store) (uid : string) : bool :=
  doc_exists (users s !! uid) && Js.truthy (doc_isAdmin (users s !! uid)).

End Admin.

(* ===================================================================== *)
(** ** The Firestore entry point of the admin SDK *)
(* ===================================================================== *)

Module FirestoreSdk.

(** The values that the package [firebase-admin/firestore] exports. The
    functions [collection], [query], [where] and [getDocs] belong to the
    client SDK and are not among them. *)
Definition exports : list string :=
  ["AggregateField"; "BulkWriter"; "BundleBuilder"; "CollectionGroup";
   "CollectionReference"; "DocumentReference"; "DocumentSnapshot";
   "FieldPath"; "FieldValue"; "Filter"; "Firestore"; "GeoPoint";
   "GrpcStatus"; "Query"; "QueryDocumentSnapshot"; "QueryPartition";
   "QuerySnapshot"; "Timestamp"; "Transaction"; "WriteBatch";
   "WriteResult"; "getFirestore"; "initializeFirestore";
   "setLogFunction"; "v1"].

Definition exported (name : string) : bool :=
  existsb (String.eqb name) exports.

End FirestoreSdk.

(* ===================================================================== *)
(** ** The network-abuse guard (the IP-detection handlers) *)
(* ===================================================================== *)

Module IpDetection.

(** The fields the handlers destructure from [req.body]; a missing
    field is [None]. *)
Record Body := mkBody {
  ipAddress : option string;
  maxAccounts : option Z;
  userId : option string;
  email : option string
}.

(** What the surroundings supply during one request: the successive
    readings of the clock ([new Date()], [Timestamp.now()]), the
    identifier that [doc()] generates, and whether the store carries out
    a write. *)
Record Ambient := mkAmbient {
  clock : nat -> Z;
  autoId : string;
  store_up : bool
}.

Definition bad_request (msg : string) : response :=
  status_json 400 [("error", r_text msg)].

Definition server_error (msg : string) : response :=
  status_json 500 [("error", r_text msg)].

(** The body of a [try] block gives an answer and a store, or throws
    ([None]); the [catch] block answers 500 with the handler's text, and
    what was thrown before any write leaves the store as it was. *)
Definition try_catch (msg : string) (s : Store)
           (block : option (response * Store)) : response * Store :=
  match block with
  | Some out => out
  | None => (server_error msg, s)
  end.

(** A call of a function imported from [firebase-admin/firestore]: a
    name the package does not export is [undefined], and the call throws
    a [TypeError]. *)
Definition imported {A} (name : string) (k : option A) : option A :=
  if FirestoreSdk.exported name then k else None.

(** A write to the store, which throws when the store is down. *)
Definition write {A} (amb : Ambient) (out : A) : option A :=
  if store_up amb then Some out else None.

Definition handleCheckIPBan (amb : Ambient) (req : Body) (s : Store)
  : response * Store :=
  try_catch "Failed to check IP ban" s
    (if Js.falsy_string (ipAddress req)
     then Some (bad_request "IP address required", s)
     else
       let address := default "" (ipAddress req) in
       imported "collection" (imported "where" (imported "query"
       (imported "getDocs"
         (let snapshot :=
            Firestore.where_
              (fun d => String.eqb (IPBan.ipAddress d) address) (ip_bans s) in
          match snapshot with
          | [] => Some (json [("banned", r_bool false)], s)
          | (banId, banData) :: _ =>
              let expired :=
                match IPBan.expiresAt banData with
                | Some expiresAt => expiresAt <? clock amb 0
                | None => false
                end in
              if expired
              then write amb
                     (json [("banned", r_bool false)],
                      with_ip_bans (Firestore.delete banId (ip_bans s)) s)
              else Some
                     (json [("banned", r_bool true);
                            ("reason", r_text (IPBan.reason banData));
                            ("expiresAt",
                             match IPBan.expiresAt banData with
                             | Some expiresAt => r_date expiresAt
                             | None => r_null
                             end)],
                      s)
          end))))).

Definition handleCheckIPLimit (req : Body) (s : Store) : response * Store :=
  try_catch "Failed to check IP limit" s
    (if Js.falsy_string (ipAddress req) || Js.falsy_number (maxAccounts req)
     then Some (bad_request "IP address and maxAccounts required", s)
     else
       let address := default "" (ipAddress req) in
       let limit := default 0 (maxAccounts req) in
       imported "collection" (imported "where" (imported "query"
       (imported "getDocs"
         (let snapshot :=
            Firestore.where_
              (fun d => String.eqb (UserIP.ipAddress d) address) (user_ips s) in
          let accountCount := Z.of_nat (length snapshot) in
          let isLimitExceeded := limit <=? accountCount in
          Some (json [("accountCount", r_num accountCount);
                      ("maxAccounts", r_num limit);
                      ("isLimitExceeded", r_bool isLimitExceeded)],
                s)))))).

Definition handleRecordUserIP (amb : Ambient) (req : Body) (s : Store)
  : response * Store :=
  try_catch "Failed to record IP" s
    (if Js.falsy_string (userId req) || Js.falsy_string (ipAddress req)
     then Some (bad_request "userId and ipAddress required", s)
     else
       let user := default "" (userId req) in
       let address := default "" (ipAddress req) in
       let ipId := autoId amb in
       let now := clock amb 0 in
       write amb
         (json [("success", r_bool true); ("ipId", r_text ipId)],
          with_user_ips
            (Firestore.set ipId
               (UserIP.Build user address (Some (default "" (email req))) now now)
               (user_ips s))
            s)).

Definition handleUpdateUserIPLogin (amb : Ambient) (req : Body) (s : Store)
  : response * Store :=
  try_catch "Failed to update IP login" s
    (if Js.falsy_string (userId req) || Js.falsy_string (ipAddress req)
     then Some (bad_request "userId and ipAddress required", s)
     else
       let user := default "" (userId req) in
       let address := default "" (ipAddress req) in
       imported "collection" (imported "where" (imported "query"
       (imported "getDocs"
         (let snapshot :=
            Firestore.where_
              (fun d => String.eqb (UserIP.userId d) user) (user_ips s) in
          let found :=
            List.find (fun e => String.eqb (UserIP.ipAddress (snd e)) address)
                      snapshot in
          write amb
            (json [("success", r_bool true)],
             match found with
             | Some (id, _) =>
                 with_user_ips
                   (Firestore.update id (UserIP.touch (clock amb 0))
                      (user_ips s)) s
             | None =>
                 with_user_ips
                   (Firestore.set (autoId amb)
                      (UserIP.Build user address None (clock amb 0)
                         (clock amb 1))
                      (user_ips s))
                   s
             end)))))).

(** The Address-Usage Records that link [user] to [address]. *)
Definition same_pair (user address : string) (d : UserIP.t) : bool :=
  String.eqb (UserIP.userId d) user && String.eqb (UserIP.ipAddress d) address.


(** The Address-Usage Records of an address. *)
Definition usages_of (address : string) (s : Store)
  : Firestore.collection UserIP.t :=
  Firestore.where_ (fun d => String.eqb (UserIP.ipAddress d) address) (user_ips s).

End IpDetection.

(* ===================================================================== *)
(** ** Sample data *)
(* ===================================================================== *)

Module Sample.
Import Admin.

(** An identity provider that knows three tokens and rejects the rest;
    a service that does not find the user [nonexistent-user-id-000]. *)
Definition provider (t : string) : exn + string :=
  if String.eqb t "token-of-alice" then inr "alice-uid-0001"
  else if String.eqb t "token-of-bob00" then inr "bob-uid-000002"
  else if String.eqb t "token-of-carol" then inr "carol-uid-0003"
  else inl (Error "Firebase ID token has expired").

Definition find_user {A} (userId : string) (ok : A) (s : Store)
  : (exn + A) * Store :=
  if String.eqb userId "nonexistent-user-id-000"
  then (inl (Error "User not found"), s)
  else (inr ok, s).

Definition env : Env :=
  mkEnv (fun _ _ => true) provider
    (fun _ userId _ _ => find_user userId "ban-0001")
    (fun s => (inr [], s))
    (fun _ _ _ s => (inr "LICENSE-KEY", s))
    (fun _ _ _ _ s => (inr "ban-0002", s))
    (fun _ userId => find_user userId tt).

(** alice is an admin, bob carries the number 1 in [isAdmin], carol
    the boolean false. *)
Definition store : Store :=
  mkStore
    (<["alice-uid-0001" := {["isAdmin" := Js.boolean true]}]>
     (<["bob-uid-000002" := {["isAdmin" := Js.number 1]}]>
      (<["carol-uid-0003" := {["isAdmin" := Js.boolean false]}]> ∅)))
    [] [].

Definition ban_body (token user reason : string) : gmap string Js.value :=
  <["idToken" := Js.str token]>
  (<["userId" := Js.str user]>
   (<["reason" := Js.str reason]>
    (<["duration" := Js.number 7]> ∅))).

Definition banip_body (token reason : string) : gmap string Js.value :=
  <["idToken" := Js.str token]>
  (<["ipAddress" := Js.str "1.2.3.4"]>
   (<["reason" := Js.str reason]>
    (<["duration" := Js.number 7]> ∅))).

Definition token_body (token : string) : gmap string Js.value :=
  {["idToken" := Js.str token]}.

(** Network-abuse data: a ban of 1.2.3.4 that expires at time 1000, a
    permanent ban of 9.9.9.9, and accounts seen from 1.2.3.4. *)
Definition bans : Firestore.collection IPBan.t :=
  [("ban-doc-0001", IPBan.Build "1.2.3.4" "port scanning" 0 (Some 1000));
   ("ban-doc-0002", IPBan.Build "9.9.9.9" "botnet node" 0 None)].

Definition usage (user : string) : UserIP.t :=
  UserIP.Build user "1.2.3.4" (Some "") 10 10.

Definition two_accounts : Firestore.collection UserIP.t :=
  [("ip-doc-0001", usage "user-0001"); ("ip-doc-0002", usage "user-0002")].


Definition guard_store (ips : Firestore.collection UserIP.t) : Store :=
  mkStore ∅ bans ips.

Definition at_time (now : Z) (id : string) : IpDetection.Ambient :=
  IpDetection.mkAmbient (fun _ => now) id true.

Definition check (address : string) (limit : option Z) : IpDetection.Body :=
  IpDetection.mkBody (Some address) limit None None.

Definition usage_of (user address : string) : IpDetection.Body :=
  IpDetection.mkBody (Some address) None (Some user) None.

Definition post (b : gmap string Js.value) : Request := mkRequest b None.
Definition get (header : string) : Request := mkRequest ∅ (Some header).

End Sample.

(* ===================================================================== *)
(** ** Notions used to state what the handlers do and never do *)
(* ===================================================================== *)

Module Notions.
Import Admin.

(** A call of a [FirebaseAdminService] method other than the gate. *)
Definition is_service (ev : event) : bool :=
  match ev with
  | auth_verifyIdToken _ | users_doc_get _ => false
  | _ => true
  end.

(** The keys an endpoint's schema names; every other key of the body is
    dropped by the parse. *)
Definition body_fields (ep : endpoint) : list string :=
  match ep with
  | VerifyAdmin => ["idToken"]
  | BanUser => ["idToken"; "userId"; "reason"; "duration"]
  | GetAllUsers => []
  | CreateLicense => ["idToken"; "plan"; "validityDays"]
  | BanIP => ["idToken"; "ipAddress"; "reason"; "duration"]
  | DeleteUser => ["idToken"; "userId"]
  end.

(** The request [req] with one more key in its body. *)
Definition with_key (k : string) (v : Js.value) (req : Request) : Request :=
  mkRequest (<[k := v]> (req_body req)) (authorization req).

(** A Ban Record that a check at time [now] does not treat as expired. *)
Definition live (now : Z) (ban : IPBan.t) : Prop :=
  forall t, IPBan.expiresAt ban = Some t -> now <= t.

(** The arguments a service call may carry, as the schemas bound them. *)
Definition validated_call (E : Env) (ev : event) : Prop :=
  match ev with
  | svc_banUser _ userId reason duration =>
      (10 <= String.length userId <= 100)%nat /\
      (String.length reason <= 500)%nat /\ Js.trim reason = reason /\
      1 <= duration <= 36500
  | svc_banIP _ ipAddress reason duration =>
      (isValidIP E Zod.v4 ipAddress = true \/
       isValidIP E Zod.v6 ipAddress = true) /\
      (String.length reason <= 500)%nat /\ Js.trim reason = reason /\
      1 <= duration <= 36500
  | svc_createLicense _ plan validityDays =>
      In plan ["Free"; "Classic"; "Pro"] /\ 1 <= validityDays <= 3650
  | svc_deleteUser _ userId => (10 <= String.length userId <= 100)%nat
  | _ => True
  end.

End Notions.

(** Further sample data. *)
Module Scenario.

(** Two bans of 1.2.3.4 in query order: one that expired at time 1000 and
    one that lasts until time 9000. *)
Definition stacked_bans : Firestore.collection IPBan.t :=
  [("ban-doc-0001", IPBan.Build "1.2.3.4" "port scanning" 0 (Some 1000));
   ("ban-doc-0003", IPBan.Build "1.2.3.4" "credential stuffing" 500 (Some 9000))].

Definition stacked : Store := mkStore ∅ stacked_bans Sample.two_accounts.

Definition license_body (token plan : string) (days : Z) : gmap string Js.value :=
  <["idToken" := Js.str token]>
  (<["plan" := Js.str plan]>
   (<["validityDays" := Js.number days]> ∅)).

Definition delete_body (token user : string) : gmap string Js.value :=
  <["idToken" := Js.str token]> (<["userId" := Js.str user]> ∅).

Definition signup (user address : string) : IpDetection.Body :=
  IpDetection.mkBody (Some address) None (Some user) (Some "u@example.org").

End Scenario.

(* ===================================================================== *)
(** ** Properties *)
(* ===================================================================== *)

Section AdminFacts.
Import Admin.
Variable E : Env.

(** The effect of the gate, in one equation. *)
Lemma verifyAdmin_run (idToken : string) (s : Store) :
  verifyAdmin E idToken s =
  match verifyIdToken E idToken with
  | inl e => ([auth_verifyIdToken idToken], s, inl e)
  | inr uid =>
      ([auth_verifyIdToken idToken; users_doc_get uid], s,
       if is_admin s uid then inr uid else inl NotAdmin)
  end.
Proof.
  unfold verifyAdmin, bind, auth_verify, users_get, is_admin.
  destruct (verifyIdToken E idToken) as [e|uid]; [reflexivity|].
  destruct (users s !! uid) as [data|]; simpl; [|reflexivity].
  destruct (Js.truthy _); reflexivity.
Qed.

End AdminFacts.

(** C1: for a subject whose user record, if there is one, carries a
    boolean [isAdmin] flag or none, and whose token the provider has
    verified as [uid]: the gate throws the not-admin error whenever the
    record does not exist or its flag is not [true], and it returns
    [uid] only when the record exists with the flag [true]; it has no
    other outcome and leaves the store as it was. *)
Theorem verifyAdmin_gate (E : Admin.Env) (idToken uid : string) (s : Store) :
  Admin.verifyIdToken E idToken = inr uid ->
  (forall data, users s !! uid = Some data ->
     data !! "isAdmin" = None \/
     exists b, data !! "isAdmin" = Some (Js.boolean b)) ->
  let '(_, s', r) := Admin.verifyAdmin E idToken s in
  s' = s /\
  (r = inr uid \/ r = inl Admin.NotAdmin) /\
  (users s !! uid = None -> r = inl Admin.NotAdmin) /\
  (forall data, users s !! uid = Some data ->
     data !! "isAdmin" <> Some (Js.boolean true) -> r = inl Admin.NotAdmin) /\
  (r = inr uid <->
   exists data, users s !! uid = Some data /\
                data !! "isAdmin" = Some (Js.boolean true)).
Proof.
  intros Hv Hbool. rewrite verifyAdmin_run, Hv.
  split; [reflexivity|].
  unfold Admin.is_admin.
  destruct (users s !! uid) as [data|] eqn:Hd; simpl.
  - destruct (Hbool data eq_refl) as [Hf|[[] Hf]]; rewrite Hf; simpl.
    + split; [auto|]. split; [discriminate|]. split; [auto|].
      split; [discriminate|]. intros (d & [= <-] & Hd'). congruence.
    + split; [auto|]. split; [discriminate|]. split.
      * intros d [= <-] Hne. congruence.
      * split; [eauto|reflexivity].
    + split; [auto|]. split; [discriminate|]. split; [auto|].
      split; [discriminate|]. intros (d & [= <-] & Hd'). congruence.
  - split; [auto|]. split; [auto|]. split; [discriminate|].
    split; [discriminate|]. intros (d & Hd' & _). discriminate.
Qed.

Lemma verifyAdmin_gate_witness :
  let '(_, s', r) :=
    Admin.verifyAdmin Sample.env "token-of-carol" Sample.store in
  s' = Sample.store /\ r = inl Admin.NotAdmin.
Proof.
  pose proof (verifyAdmin_gate Sample.env "token-of-carol" "carol-uid-0003"
                Sample.store eq_refl) as H.
  destruct (Admin.verifyAdmin Sample.env "token-of-carol" Sample.store)
    as [[t s'] r].
  destruct H as (Hs & _ & _ & Hflag & _).
  - intros data Hd. vm_compute in Hd. injection Hd as <-.
    right. exists false. reflexivity.
  - split; [exact Hs|].
    apply (Hflag {["isAdmin" := Js.boolean false]}); [reflexivity|].
    vm_compute. discriminate.
Defined.

Section SchemaFacts.
Import Admin.
Variable E : Env.

Lemma both_inr {A B} (a : list Zod.issue + A) (b : list Zod.issue + B) x y :
  Zod.both a b = inr (x, y) -> a = inr x /\ b = inr y.
Proof. destruct a, b; simpl; intros H; inversion H; auto. Qed.

Lemma map_ok_inr {A B} (f : A -> B) (a : list Zod.issue + A) y :
  Zod.map_ok f a = inr y -> exists x, a = inr x /\ y = f x.
Proof. destruct a; simpl; intros H; inversion H; eauto. Qed.

(** The token field: accepted exactly when it is a string that meets
    the contract, and handed on unchanged. *)
Lemma idToken_accepted (p : string) (v : Js.value) (t : string) :
  zstring E idToken_checks p v = inr t -> v = Js.str t /\ token_ok t = true.
Proof.
  unfold zstring, Zod.string_, idToken_checks.
  destruct v; try discriminate. simpl.
  destruct (String.length s <? 10)%nat eqn:H1;
    destruct (3000 <? String.length s)%nat eqn:H2;
    destruct (token_format s) eqn:H3; simpl; try discriminate.
  intros H; inversion H; subst. split; [reflexivity|].
  apply Nat.ltb_ge in H1, H2. apply Nat.leb_le in H1, H2.
  unfold token_ok. rewrite H1, H2, H3. reflexivity.
Qed.

(** A request that reaches [verifyAdmin] through a schema carries the
    token in its [idToken] field, and the token meets the contract. *)
Lemma accepted_token_schema (ep : endpoint) (req : Request) (tok : string) :
  has_schema ep = true ->
  accepted_token E ep req = Some tok ->
  Zod.field (req_body req) "idToken" = Js.str tok /\ token_ok tok = true.
Proof.
  intros Hep. destruct ep; try discriminate; simpl;
    unfold VerifyAdminSchema, BanUserSchema, CreateLicenseSchema,
      BanIPSchema, DeleteUserSchema;
    match goal with
    | |- context [Zod.map_ok ?f ?a] =>
        destruct (Zod.map_ok f a) as [i|v] eqn:Hm; [discriminate|];
        apply map_ok_inr in Hm as (x & Hx & ->)
    end; intros [= <-].
  - apply idToken_accepted in Hx. exact Hx.
  - destruct x as [[[t u] r] d].
    apply both_inr in Hx as [Hx _]. apply both_inr in Hx as [Hx _].
    apply both_inr in Hx as [Hx _]. apply idToken_accepted in Hx. exact Hx.
  - destruct x as [[t u] d].
    apply both_inr in Hx as [Hx _]. apply both_inr in Hx as [Hx _].
    apply idToken_accepted in Hx. exact Hx.
  - destruct x as [[[t u] r] d].
    apply both_inr in Hx as [Hx _]. apply both_inr in Hx as [Hx _].
    apply both_inr in Hx as [Hx _]. apply idToken_accepted in Hx. exact Hx.
  - destruct x as [t u].
    apply both_inr in Hx as [Hx _]. apply idToken_accepted in Hx. exact Hx.
Qed.

Lemma accepted_token_none (ep : endpoint) (req : Request) :
  has_schema ep = true ->
  (forall t, Zod.field (req_body req) "idToken" = Js.str t ->
             token_ok t = false) ->
  accepted_token E ep req = None.
Proof.
  intros Hep Hbad.
  destruct (accepted_token E ep req) as [tok|] eqn:Ha; [|reflexivity].
  destruct (accepted_token_schema ep req tok Hep Ha) as [Hf Hok].
  rewrite (Hbad tok Hf) in Hok. discriminate.
Qed.

End SchemaFacts.

Section HandlerFacts.
Import Admin.
Variable E : Env.

Ltac open_handler :=
  unfold handler, handleVerifyAdmin, handleBanUser, handleGetAllUsers,
    handleCreateLicense, handleBanIP, handleDeleteUser,
    try_catch, bind, parse, lift, call, ret, throw, accepted_token.

(** Every endpoint has the same skeleton: validation, then the gate,
    then at most one service call made in the verified admin's name. *)
Lemma handler_run (ep : endpoint) (req : Request) (s : Store) :
  let '(t, s', r) := handler E ep req s in
  match accepted_token E ep req with
  | None =>
      t = [] /\ s' = s /\
      exists e, r = failure ep e /\
                status r = if has_schema ep then 400 else 401
  | Some tok =>
      match verifyIdToken E tok with
      | inl e => t = [auth_verifyIdToken tok] /\ s' = s /\ r = failure ep e
      | inr uid =>
          if is_admin s uid
          then exists evs,
              t = auth_verifyIdToken tok :: users_doc_get uid :: evs /\
              length evs = (if calls_service ep then 1 else 0)%nat /\
              forall ev, In ev evs ->
                attributed ev = if moderation ep then Some uid else None
          else t = [auth_verifyIdToken tok; users_doc_get uid] /\
               s' = s /\ r = failure ep NotAdmin
      end
  end.
Proof.
  destruct ep; open_handler.
  all: match goal with
       | |- context [match ?sch with inl _ => _ | inr _ => _ end] =>
           destruct sch as [i|v] eqn:Hs
       end.
  all: try (split; [reflexivity|split; [reflexivity|]];
            first [exists (ZodError i) | exists i]; split; reflexivity).
  all: rewrite verifyAdmin_run.
  all: match goal with
       | |- context [verifyIdToken E ?t] =>
           destruct (verifyIdToken E t) as [e|uid] eqn:Hv
       end.
  all: try (simpl; repeat split; reflexivity).
  all: destruct (is_admin s uid) eqn:Ha.
  all: try (simpl; repeat split; reflexivity).
  all: try match goal with
       | |- context [banUser E ?a ?b ?c ?d ?s] =>
           destruct (banUser E a b c d s) as [[x|x] s1]
       | |- context [banIP E ?a ?b ?c ?d ?s] =>
           destruct (banIP E a b c d s) as [[x|x] s1]
       | |- context [createLicense E ?a ?b ?c ?s] =>
           destruct (createLicense E a b c s) as [[x|x] s1]
       | |- context [deleteUser E ?a ?b ?s] =>
           destruct (deleteUser E a b s) as [[x|x] s1]
       | |- context [getAllUsers E ?s] =>
           destruct (getAllUsers E s) as [[x|x] s1]
       end.
  all: simpl; eexists; split; [reflexivity|]; split; [reflexivity|].
  all: simpl; intros ev Hev; intuition (subst; reflexivity).
Qed.

End HandlerFacts.

(** C2: on the four moderation endpoints, the admin identifier handed to
    the service call is the identifier the identity provider returns for
    the request's [idToken]; two requests carrying the same [idToken]
    field are attributed to the same admin, whatever their other fields
    and whatever the store holds; and a valid request of an admin does
    reach the service call, made in that admin's name. *)
Theorem admin_attribution (E : Admin.Env) (ep : Admin.endpoint) :
  Admin.moderation ep = true ->
  (forall req s ev a,
      In ev (fst (fst (Admin.handler E ep req s))) ->
      Admin.attributed ev = Some a ->
      exists tok,
        Zod.field (Admin.req_body req) "idToken" = Js.str tok /\
        Admin.verifyIdToken E tok = inr a) /\
  (forall req1 req2 s1 s2 ev1 ev2 a1 a2,
      Admin.req_body req1 !! "idToken" = Admin.req_body req2 !! "idToken" ->
      In ev1 (fst (fst (Admin.handler E ep req1 s1))) ->
      In ev2 (fst (fst (Admin.handler E ep req2 s2))) ->
      Admin.attributed ev1 = Some a1 ->
      Admin.attributed ev2 = Some a2 ->
      a1 = a2) /\
  (forall req s tok uid,
      Admin.accepted_token E ep req = Some tok ->
      Admin.verifyIdToken E tok = inr uid ->
      Admin.is_admin s uid = true ->
      exists ev,
        In ev (fst (fst (Admin.handler E ep req s))) /\
        Admin.attributed ev = Some uid).
Proof.
  intros Hmod.
  assert (Hone : forall req s ev a,
      In ev (fst (fst (Admin.handler E ep req s))) ->
      Admin.attributed ev = Some a ->
      exists tok,
        Zod.field (Admin.req_body req) "idToken" = Js.str tok /\
        Admin.verifyIdToken E tok = inr a).
  { intros req s ev a Hin Hat.
    pose proof (handler_run E ep req s) as Hrun.
    destruct (Admin.handler E ep req s) as [[t s'] r]. simpl in Hin.
    destruct (Admin.accepted_token E ep req) as [tok|] eqn:Hacc.
    - assert (Hsch : Admin.has_schema ep = true) by (destruct ep; auto).
      destruct (accepted_token_schema E ep req tok Hsch Hacc) as [Hf _].
      exists tok. split; [exact Hf|].
      destruct (Admin.verifyIdToken E tok) as [e|uid] eqn:Hv.
      + destruct Hrun as (-> & _). destruct Hin as [<-|[]]. discriminate.
      + destruct (Admin.is_admin s uid).
        * destruct Hrun as (evs & -> & _ & Hevs).
          destruct Hin as [<-|[<-|Hin]]; try discriminate.
          apply Hevs in Hin. rewrite Hmod in Hin. congruence.
        * destruct Hrun as (-> & _).
          destruct Hin as [<-|[<-|[]]]; discriminate.
    - destruct Hrun as (-> & _). destruct Hin. }
  split; [exact Hone|]. split.
  - intros req1 req2 s1 s2 ev1 ev2 a1 a2 Hsame H1 H2 Ha1 Ha2.
    destruct (Hone req1 s1 ev1 a1 H1 Ha1) as (t1 & Hf1 & Hv1).
    destruct (Hone req2 s2 ev2 a2 H2 Ha2) as (t2 & Hf2 & Hv2).
    unfold Zod.field in Hf1, Hf2. rewrite Hsame in Hf1.
    rewrite Hf1 in Hf2. injection Hf2 as <-. congruence.
  - intros req s tok uid Hacc Hv Ha.
    pose proof (handler_run E ep req s) as Hrun.
    destruct (Admin.handler E ep req s) as [[t s'] r]. simpl.
    rewrite Hacc, Hv, Ha in Hrun. destruct Hrun as (evs & -> & Hlen & Hevs).
    assert (Hcall : Admin.calls_service ep = true) by (destruct ep; auto).
    rewrite Hcall in Hlen. destruct evs as [|ev evs]; [discriminate|].
    exists ev. split; [simpl; auto|].
    rewrite (Hevs ev (or_introl eq_refl)), Hmod. reflexivity.
Qed.

Lemma admin_attribution_witness :
  exists tok,
    Zod.field (Sample.ban_body "token-of-alice" "victim-uid-0001" "posting spam")
              "idToken" = Js.str tok /\
    Admin.verifyIdToken Sample.env tok = inr "alice-uid-0001".
Proof.
  apply (proj1 (admin_attribution Sample.env Admin.BanUser eq_refl)
           (Sample.post
              (Sample.ban_body "token-of-alice" "victim-uid-0001" "posting spam"))
           Sample.store
           (Admin.svc_banUser "alice-uid-0001" "victim-uid-0001" "posting spam" 7)
           "alice-uid-0001").
  - vm_compute. right. right. left. reflexivity.
  - reflexivity.
Defined.




(** C4: the endpoints that parse the body with a schema refuse a token
    that breaks the contract with status 400 before anything is called
    and with the store untouched; the list-users endpoint checks only the
    length of the trimmed header token, so the token ["not a token!"],
    which contains characters outside the charset, is passed to the
    identity provider. *)
Theorem token_contract_before_calls :
  (forall (E : Admin.Env) ep req s,
      Admin.has_schema ep = true ->
      (forall t, Zod.field (Admin.req_body req) "idToken" = Js.str t ->
                 Admin.token_ok t = false) ->
      fst (Admin.handler E ep req s) = ([], s) /\
      status (snd (Admin.handler E ep req s)) = 400) /\
  (forall (E : Admin.Env) s,
      Admin.token_ok "not a token!" = false /\
      exists rest,
        fst (fst (Admin.handleGetAllUsers E
                    (Sample.get "Bearer not a token!") s))
        = Admin.auth_verifyIdToken "not a token!" :: rest).
Proof.
  split.
  - intros E ep req s Hep Hbad.
    pose proof (handler_run E ep req s) as Hrun.
    rewrite (accepted_token_none E ep req Hep Hbad) in Hrun.
    destruct (Admin.handler E ep req s) as [[t s'] r]. simpl.
    destruct Hrun as (-> & -> & e & _ & Hst). rewrite Hep in Hst. auto.
  - intros E s. split; [reflexivity|].
    pose proof (handler_run E Admin.GetAllUsers
                  (Sample.get "Bearer not a token!") s) as Hrun.
    simpl in Hrun.
    destruct (Admin.handleGetAllUsers E (Sample.get "Bearer not a token!") s)
      as [[t s'] r]. simpl.
    change (Js.trim "not a token!") with "not a token!" in Hrun.
    destruct (Admin.verifyIdToken E "not a token!") as [e|uid].
    + destruct Hrun as (-> & _). eauto.
    + destruct (Admin.is_admin s uid).
      * destruct Hrun as (evs & -> & _). eauto.
      * destruct Hrun as (-> & _). eauto.
Qed.

Lemma token_contract_before_calls_witness :
  fst (Admin.handler Sample.env Admin.BanUser
         (Sample.post (Sample.ban_body "bad token!" "victim-uid-0001" "posting spam"))
         Sample.store) = ([], Sample.store) /\
  status (snd (Admin.handler Sample.env Admin.BanUser
         (Sample.post (Sample.ban_body "bad token!" "victim-uid-0001" "posting spam"))
         Sample.store)) = 400.
Proof.
  apply (proj1 token_contract_before_calls Sample.env Admin.BanUser
           (Sample.post (Sample.ban_body "bad token!" "victim-uid-0001" "posting spam"))
           Sample.store eq_refl).
  intros t Ht. vm_compute in Ht. injection Ht as <-. reflexivity.
Defined.

(** C5 (as amended): the bounds 5 to 500 of a ban reason are checked on
    the string as it was sent, and the white space around it is stripped
    afterwards; the validated reason is the trimmed string. Both the
    ban-user and the ban-IP schema behave so. *)
Theorem reason_checked_then_trimmed (E : Admin.Env) :
  (forall p r,
      (5 <= String.length r <= 500)%nat ->
      Admin.zstring E Admin.reason_checks p (Js.str r) = inr (Js.trim r)) /\
  (forall p r,
      (String.length r < 5 \/ 500 < String.length r)%nat ->
      exists i, Admin.zstring E Admin.reason_checks p (Js.str r) = inl i) /\
  (forall b v,
      Admin.BanUserSchema E b = inr v ->
      exists r, Zod.field b "reason" = Js.str r /\
                (5 <= String.length r <= 500)%nat /\
                Admin.bu_reason v = Js.trim r) /\
  (forall b v,
      Admin.BanIPSchema E b = inr v ->
      exists r, Zod.field b "reason" = Js.str r /\
                (5 <= String.length r <= 500)%nat /\
                Admin.bi_reason v = Js.trim r).
Proof.
  assert (Hreason : forall p x t,
             Admin.zstring E Admin.reason_checks p x = inr t ->
             exists r, x = Js.str r /\ (5 <= String.length r <= 500)%nat /\
                       t = Js.trim r).
  { intros p x t. unfold Admin.zstring, Zod.string_, Admin.reason_checks.
    destruct x; try discriminate. cbn -[Nat.ltb Js.trim].
    destruct (String.length s <? 5)%nat eqn:H1;
      destruct (500 <? String.length s)%nat eqn:H2;
      cbn -[Js.trim]; try discriminate.
    intros [= <-]. exists s.
    apply Nat.ltb_ge in H1, H2. auto. }
  repeat split.
  - intros p r [H1 H2]. unfold Admin.zstring, Zod.string_, Admin.reason_checks.
    cbn -[Nat.ltb Js.trim]. apply Nat.ltb_ge in H1, H2.
    rewrite H1, H2. reflexivity.
  - intros p r H.
    destruct (Admin.zstring E Admin.reason_checks p (Js.str r)) as [i|t] eqn:Hz;
      [eauto|].
    apply Hreason in Hz as (r' & [= <-] & Hlen & _). lia.
  - intros b v Hs. unfold Admin.BanUserSchema in Hs.
    apply map_ok_inr in Hs as ([[[t u] r] d] & Hx & ->).
    apply both_inr in Hx as [Hx _]. apply both_inr in Hx as [_ Hx].
    apply Hreason in Hx. exact Hx.
  - intros b v Hs. unfold Admin.BanIPSchema in Hs.
    apply map_ok_inr in Hs as ([[[t u] r] d] & Hx & ->).
    apply both_inr in Hx as [Hx _]. apply both_inr in Hx as [_ Hx].
    apply Hreason in Hx. exact Hx.
Qed.

Lemma reason_checked_then_trimmed_witness :
  Admin.zstring Sample.env Admin.reason_checks "reason" (Js.str "  spam  ")
  = inr "spam".
Proof.
  apply (proj1 (reason_checked_then_trimmed Sample.env) "reason" "  spam  ").
  simpl. lia.
Defined.

(** C5, the claim as stated fails: the reason ["spam    "] has eight
    characters and a trimmed form of four, and both schemas accept it. *)
Lemma short_trimmed_reason_counterexample :
  String.length "spam    " = 8%nat /\
  String.length (Js.trim "spam    ") = 4%nat /\
  Admin.BanUserSchema Sample.env
    (Sample.ban_body "token-of-alice" "victim-uid-0001" "spam    ")
  = inr (Admin.mkBanUser "token-of-alice" "victim-uid-0001" "spam" 7) /\
  Admin.BanIPSchema Sample.env (Sample.banip_body "token-of-alice" "spam    ")
  = inr (Admin.mkBanIP "token-of-alice" "1.2.3.4" "spam" 7).
Proof. repeat split; reflexivity. Qed.

(** C8: what the code does where the claim expects status 400. When the
    request is valid, the caller is an admin and [deleteUser] throws an
    error that is not a validation error, for instance "User not found",
    the delete-user endpoint answers 401; the ban-user endpoint, whose
    [catch] block looks for that message, answers 400 in the same
    situation. *)
Theorem deleteUser_target_not_found_status
  (E : Admin.Env) (req : Admin.Request) (s : Store) (uid : string) :
  (forall v e s1,
      Admin.DeleteUserSchema E (Admin.req_body req) = inr v ->
      Admin.verifyIdToken E (Admin.du_idToken v) = inr uid ->
      Admin.is_admin s uid = true ->
      Admin.deleteUser E uid (Admin.du_userId v) s = (inl e, s1) ->
      Admin.is_ZodError e = false ->
      status (snd (Admin.handleDeleteUser E req s)) = 401) /\
  (forall v s1,
      Admin.BanUserSchema E (Admin.req_body req) = inr v ->
      Admin.verifyIdToken E (Admin.bu_idToken v) = inr uid ->
      Admin.is_admin s uid = true ->
      Admin.banUser E uid (Admin.bu_userId v) (Admin.bu_reason v)
        (Admin.bu_duration v) s = (inl (Admin.Error "User not found"), s1) ->
      status (snd (Admin.handleBanUser E req s)) = 400).
Proof.
  split.
  - intros v e s1 Hs Hv Ha Hsvc Hz.
    unfold Admin.handleDeleteUser, Admin.try_catch, Admin.bind, Admin.parse,
      Admin.call.
    rewrite Hs. cbn [Admin.ret]. rewrite verifyAdmin_run, Hv, Ha, Hsvc.
    cbn. rewrite Hz. reflexivity.
  - intros v s1 Hs Hv Ha Hsvc.
    unfold Admin.handleBanUser, Admin.try_catch, Admin.bind, Admin.parse,
      Admin.call.
    rewrite Hs. cbn [Admin.ret]. rewrite verifyAdmin_run, Hv, Ha, Hsvc.
    reflexivity.
Qed.

Lemma deleteUser_target_not_found_status_witness :
  status (snd (Admin.handleDeleteUser Sample.env
                 (Sample.post (Sample.ban_body "token-of-alice"
                                 "nonexistent-user-id-000" "posting spam"))
                 Sample.store)) = 401.
Proof.
  apply (proj1 (deleteUser_target_not_found_status Sample.env
                  (Sample.post (Sample.ban_body "token-of-alice"
                                  "nonexistent-user-id-000" "posting spam"))
                  Sample.store "alice-uid-0001")
           (Admin.mkDeleteUser "token-of-alice" "nonexistent-user-id-000")
           (Admin.Error "User not found") Sample.store);
    reflexivity.
Defined.

(* --------------------------------------------------------------------- *)
(** *** The network-abuse guard *)

Section CollectionFacts.
Context {A : Type}.
Implicit Types (c : Firestore.collection A) (P : A -> bool).

(** Creating a document under an unused identifier adds one entry, at
    the place its identifier gives it. *)
Lemma set_fresh (id : string) (d : A) c :
  ~ In id (Firestore.ids c) ->
  exists c1 c2, c = (c1 ++ c2)%list /\
                Firestore.set id d c = (c1 ++ (id, d) :: c2)%list.
Proof.
  unfold Firestore.ids. induction c as [|[i x] c IH]; simpl; intros Hn.
  - exists [], []. auto.
  - destruct (String.eqb id i) eqn:Hi.
    + apply String.eqb_eq in Hi. subst. tauto.
    + destruct (String.ltb id i).
      * exists [], ((i, x) :: c). auto.
      * destruct IH as (c1 & c2 & Hc & Hs); [tauto|].
        exists ((i, x) :: c1), c2. simpl. rewrite <- Hc, Hs. auto.
Qed.

Lemma where_app P c1 c2 :
  Firestore.where_ P (c1 ++ c2)%list
  = (Firestore.where_ P c1 ++ Firestore.where_ P c2)%list.
Proof. apply List.filter_app. Qed.

Lemma where_set_count P (id : string) (d : A) c :
  ~ In id (Firestore.ids c) ->
  length (Firestore.where_ P (Firestore.set id d c))
  = (length (Firestore.where_ P c) + if P d then 1 else 0)%nat.
Proof.
  intros Hn. destruct (set_fresh id d c Hn) as (c1 & c2 & -> & ->).
  rewrite !where_app. unfold Firestore.where_ at 2 4. simpl.
  destruct (P d); rewrite !length_app; simpl; lia.
Qed.


Lemma in_set_fresh (id : string) (d : A) c e :
  ~ In id (Firestore.ids c) ->
  In e (Firestore.set id d c) <-> e = (id, d) \/ In e c.
Proof.
  intros Hn. destruct (set_fresh id d c Hn) as (c1 & c2 & -> & ->).
  rewrite !in_app_iff. simpl. intuition congruence.
Qed.

End CollectionFacts.

Section GuardFacts.
Import IpDetection.

Lemma truthy_string (o : option string) (a : string) :
  o = Some a -> a <> "" -> Js.falsy_string o = false /\ default "" o = a.
Proof.
  intros -> Ha. simpl. split; [|reflexivity]. apply String.eqb_neq. exact Ha.
Qed.

(** The first call of a query helper throws: the package exports none
    of them. *)
Lemma query_helpers_missing {A} (k : option A) :
  imported "collection" k = None.
Proof. reflexivity. Qed.

(** The three handlers that query through the imported helpers: past
    the guard their [try] block throws, and the [catch] block answers. *)
Lemma handleCheckIPBan_run (amb : Ambient) (req : Body) (s : Store) :
  handleCheckIPBan amb req s
  = if Js.falsy_string (ipAddress req)
    then (bad_request "IP address required", s)
    else (server_error "Failed to check IP ban", s).
Proof.
  unfold handleCheckIPBan. destruct (Js.falsy_string (ipAddress req));
    [reflexivity|]. rewrite query_helpers_missing. reflexivity.
Qed.

Lemma handleCheckIPLimit_run (req : Body) (s : Store) :
  handleCheckIPLimit req s
  = if Js.falsy_string (ipAddress req) || Js.falsy_number (maxAccounts req)
    then (bad_request "IP address and maxAccounts required", s)
    else (server_error "Failed to check IP limit", s).
Proof.
  unfold handleCheckIPLimit. destruct (_ || _); [reflexivity|].
  rewrite query_helpers_missing. reflexivity.
Qed.

Lemma handleUpdateUserIPLogin_run (amb : Ambient) (req : Body) (s : Store) :
  handleUpdateUserIPLogin amb req s
  = if Js.falsy_string (userId req) || Js.falsy_string (ipAddress req)
    then (bad_request "userId and ipAddress required", s)
    else (server_error "Failed to update IP login", s).
Proof.
  unfold handleUpdateUserIPLogin. destruct (_ || _); [reflexivity|].
  rewrite query_helpers_missing. reflexivity.
Qed.

(** The signup handler past its guard, with the store up. *)
Lemma handleRecordUserIP_run (amb : Ambient) (req : Body) (s : Store)
      (user address : string) :
  userId req = Some user -> user <> "" ->
  ipAddress req = Some address -> address <> "" ->
  store_up amb = true ->
  handleRecordUserIP amb req s
  = (json [("success", r_bool true); ("ipId", r_text (autoId amb))],
     with_user_ips
       (Firestore.set (autoId amb)
          (UserIP.Build user address (Some (default "" (email req)))
             (clock amb 0) (clock amb 0))
          (user_ips s))
       s).
Proof.
  intros Hu Hune Ha Hane Hup.
  destruct (truthy_string _ _ Hu Hune) as [Hfu Hdu].
  destruct (truthy_string _ _ Ha Hane) as [Hfa Hda].
  unfold handleRecordUserIP, write. rewrite Hfu, Hfa, Hdu, Hda, Hup.
  reflexivity.
Qed.

End GuardFacts.

(** C7: what the code does where the claim expects one of three
    answers. For every request that names an address, the first query
    helper the handler calls is not exported by the package it is
    imported from, the call throws, and the answer is status 500 with
    the text of the [catch] block, whatever Ban Records exist; nothing is
    deleted. *)
Theorem checkBan_query_throws
  (amb : IpDetection.Ambient) (req : IpDetection.Body) (s : Store)
  (address : string) :
  IpDetection.ipAddress req = Some address -> address <> "" ->
  IpDetection.handleCheckIPBan amb req s
  = (status_json 500 [("error", r_text "Failed to check IP ban")], s).
Proof.
  intros Hreq Ha. destruct (truthy_string _ _ Hreq Ha) as [Hf _].
  rewrite handleCheckIPBan_run, Hf. reflexivity.
Qed.

Lemma checkBan_query_throws_witness :
  IpDetection.handleCheckIPBan (Sample.at_time 500 "unused")
    (Sample.check "1.2.3.4" None) (Sample.guard_store [])
  = (status_json 500 [("error", r_text "Failed to check IP ban")],
     Sample.guard_store []).
Proof.
  apply (checkBan_query_throws (Sample.at_time 500 "unused")
           (Sample.check "1.2.3.4" None) (Sample.guard_store [])
           "1.2.3.4" eq_refl).
  discriminate.
Defined.

(** C10: what the code does for a permanent ban. When a Ban Record
    without [expiresAt] exists for the address that is checked, the
    answer is the status 500 of the [catch] block, not banned with a
    null expiry, because the query helper throws; the record is still
    there afterwards. *)
Theorem permanent_ban_check_throws
  (amb : IpDetection.Ambient) (req : IpDetection.Body) (s : Store)
  (banId : string) (ban : IPBan.t) :
  In (banId, ban) (ip_bans s) ->
  IPBan.expiresAt ban = None ->
  IPBan.ipAddress ban <> "" ->
  IpDetection.ipAddress req = Some (IPBan.ipAddress ban) ->
  fst (IpDetection.handleCheckIPBan amb req s)
  = status_json 500 [("error", r_text "Failed to check IP ban")] /\
  In (banId, ban) (ip_bans (snd (IpDetection.handleCheckIPBan amb req s))).
Proof.
  intros Hin _ Ha Hreq. destruct (truthy_string _ _ Hreq Ha) as [Hf _].
  rewrite handleCheckIPBan_run, Hf. split; [reflexivity|exact Hin].
Qed.

Lemma permanent_ban_check_throws_witness :
  fst (IpDetection.handleCheckIPBan (Sample.at_time 5000 "unused")
         (Sample.check "9.9.9.9" None) (Sample.guard_store []))
  = status_json 500 [("error", r_text "Failed to check IP ban")].
Proof.
  apply (permanent_ban_check_throws (Sample.at_time 5000 "unused")
           (Sample.check "9.9.9.9" None) (Sample.guard_store [])
           "ban-doc-0002" (IPBan.Build "9.9.9.9" "botnet node" 0 None)).
  - simpl. auto.
  - reflexivity.
  - discriminate.
  - reflexivity.
Defined.








(* --------------------------------------------------------------------- *)
(** *** Trimming *)

Section TrimFacts.

Lemma trimStart_length (s : string) :
  (String.length (Js.trimStart s) <= String.length s)%nat.
Proof.
  induction s as [|c s IH]; simpl; [lia|].
  destruct (Js.is_white_space c); simpl; lia.
Qed.

Lemma trimEnd_length (s : string) :
  (String.length (Js.trimEnd s) <= String.length s)%nat.
Proof.
  induction s as [|c s IH]; simpl; [lia|].
  destruct (Js.is_white_space c && String.eqb (Js.trimEnd s) ""); simpl; lia.
Qed.

Lemma trim_length (s : string) :
  (String.length (Js.trim s) <= String.length s)%nat.
Proof.
  unfold Js.trim. pose proof (trimEnd_length (Js.trimStart s)).
  pose proof (trimStart_length s). lia.
Qed.

Lemma trimEnd_idem (s : string) : Js.trimEnd (Js.trimEnd s) = Js.trimEnd s.
Proof.
  induction s as [|c s IH]; simpl; [reflexivity|].
  destruct (Js.is_white_space c && String.eqb (Js.trimEnd s) "") eqn:Hc;
    simpl; [reflexivity|].
  rewrite IH, Hc. reflexivity.
Qed.

(** What [trimStart] returns does not start with white space. *)
Lemma trimStart_head (s : string) :
  Js.trimStart s = "" \/
  exists c r, Js.trimStart s = String c r /\ Js.is_white_space c = false.
Proof.
  induction s as [|c s IH]; simpl; [auto|].
  destruct (Js.is_white_space c) eqn:Hc; [exact IH|]. right. eauto.
Qed.

Lemma trim_idem (s : string) : Js.trim (Js.trim s) = Js.trim s.
Proof.
  unfold Js.trim.
  destruct (trimStart_head s) as [->|(c & r & -> & Hc)]; [reflexivity|].
  simpl. rewrite Hc. simpl. rewrite Hc. simpl. rewrite Hc. simpl.
  rewrite trimEnd_idem. reflexivity.
Qed.

(** A string without white space is its own trimmed form. *)
Lemma trim_no_space (s : string) :
  forallb (fun c => negb (Js.is_white_space c)) (list_ascii_of_string s) = true ->
  Js.trim s = s.
Proof.
  intros H. unfold Js.trim.
  assert (Hend : forall t,
             forallb (fun c => negb (Js.is_white_space c))
                     (list_ascii_of_string t) = true ->
             Js.trimEnd t = t).
  { induction t as [|c t IH]; simpl; [reflexivity|].
    intros Ht. apply andb_true_iff in Ht as [Hc Ht].
    apply negb_true_iff in Hc. rewrite Hc, (IH Ht). reflexivity. }
  destruct s as [|c s]; [reflexivity|].
  simpl in H. apply andb_true_iff in H as [Hc Hs].
  assert (Hc' := Hc). apply negb_true_iff in Hc'. simpl Js.trimStart.
  rewrite Hc'. apply Hend. simpl. rewrite Hc, Hs. reflexivity.
Qed.

Lemma token_char_no_space (c : ascii) :
  Admin.token_char c = true -> Js.is_white_space c = false.
Proof.
  destruct c as [[] [] [] [] [] [] [] []]; vm_compute; congruence.
Qed.

Lemma token_format_no_space (t : string) :
  Admin.token_format t = true -> Js.trim t = t.
Proof.
  unfold Admin.token_format. intros H. apply andb_true_iff in H as [_ H].
  apply trim_no_space.
  induction (list_ascii_of_string t) as [|c l IH]; simpl in *; [reflexivity|].
  apply andb_true_iff in H as [Hc Hl].
  rewrite (token_char_no_space c Hc), (IH Hl). reflexivity.
Qed.

End TrimFacts.

(* --------------------------------------------------------------------- *)
(** *** The schemas, field by field *)

Section FieldFacts.
Import Admin.
Variable E : Env.

Lemma idToken_iff (p : string) (v : Js.value) (t : string) :
  zstring E idToken_checks p v = inr t <-> v = Js.str t /\ token_ok t = true.
Proof.
  split; [apply idToken_accepted|]. intros [-> Hok].
  unfold token_ok in Hok. apply andb_true_iff in Hok as [Hok H3].
  apply andb_true_iff in Hok as [H1 H2].
  apply Nat.leb_le in H1, H2.
  unfold zstring, Zod.string_, idToken_checks. cbn -[Nat.ltb].
  apply Nat.ltb_ge in H1, H2. rewrite H1, H2, H3. reflexivity.
Qed.

Lemma userId_iff (p : string) (v : Js.value) (u : string) :
  zstring E userId_checks p v = inr u <->
  v = Js.str u /\ (10 <= String.length u <= 100)%nat.
Proof.
  unfold zstring, Zod.string_, userId_checks. split.
  - destruct v; try discriminate. cbn -[Nat.ltb].
    destruct (String.length s <? 10)%nat eqn:H1;
      destruct (100 <? String.length s)%nat eqn:H2; cbn; try discriminate.
    intros [= <-]. apply Nat.ltb_ge in H1, H2. auto.
  - intros [-> [H1 H2]]. cbn -[Nat.ltb].
    apply Nat.ltb_ge in H1, H2. rewrite H1, H2. reflexivity.
Qed.

Lemma reason_iff (p : string) (v : Js.value) (r' : string) :
  zstring E reason_checks p v = inr r' <->
  exists r, v = Js.str r /\ (5 <= String.length r <= 500)%nat /\ r' = Js.trim r.
Proof.
  unfold zstring, Zod.string_, reason_checks. split.
  - destruct v; try discriminate. cbn -[Nat.ltb Js.trim].
    destruct (String.length s <? 5)%nat eqn:H1;
      destruct (500 <? String.length s)%nat eqn:H2;
      cbn -[Js.trim]; try discriminate.
    intros [= <-]. exists s. apply Nat.ltb_ge in H1, H2. auto.
  - intros (r & -> & [H1 H2] & ->). cbn -[Nat.ltb Js.trim].
    apply Nat.ltb_ge in H1, H2. rewrite H1, H2. reflexivity.
Qed.

Lemma int_range_iff (lo hi : Z) (p : string) (v : Js.value) (z : Z) :
  Zod.int_range lo hi p v = inr z <-> v = Js.number z /\ lo <= z <= hi.
Proof.
  unfold Zod.int_range. split.
  - destruct v; try discriminate.
    destruct (z0 <? lo) eqn:H1; destruct (hi <? z0) eqn:H2; simpl;
      try discriminate.
    intros [= <-]. apply Z.ltb_ge in H1, H2. auto.
  - intros [-> [H1 H2]]. apply Z.ltb_ge in H1, H2. rewrite H1, H2. reflexivity.
Qed.

Lemma enum_iff (vs : list string) (p : string) (v : Js.value) (x : string) :
  Zod.enum vs p v = inr x <-> v = Js.str x /\ In x vs.
Proof.
  unfold Zod.enum. split.
  - destruct v; try discriminate.
    destruct (bool_decide (s ∈ vs)) eqn:Hd; [|discriminate].
    intros [= <-]. apply bool_decide_eq_true in Hd.
    apply list_elem_of_In in Hd. auto.
  - intros [-> Hin]. apply list_elem_of_In in Hin.
    rewrite bool_decide_eq_true_2 by exact Hin. reflexivity.
Qed.

Lemma ipAddress_iff (p : string) (v : Js.value) (a : string) :
  Zod.or (zstring E [Zod.ck_ip Zod.v4]) (zstring E [Zod.ck_ip Zod.v6]) p v
  = inr a <->
  v = Js.str a /\
  (isValidIP E Zod.v4 a = true \/ isValidIP E Zod.v6 a = true).
Proof.
  unfold Zod.or, zstring, Zod.string_. split.
  - destruct v; try discriminate. cbn.
    destruct (isValidIP E Zod.v4 s) eqn:H4; cbn.
    + intros [= <-]. auto.
    + destruct (isValidIP E Zod.v6 s) eqn:H6; cbn; [|discriminate].
      intros [= <-]. auto.
  - intros [-> H]. cbn.
    destruct (isValidIP E Zod.v4 a) eqn:H4; cbn; [reflexivity|].
    destruct H as [H|H]; [discriminate|]. rewrite H. reflexivity.
Qed.

Lemma field_with_key (b : gmap string Js.value) (k f : string) (v : Js.value) :
  k <> f -> Zod.field (<[k := v]> b) f = Zod.field b f.
Proof. intros Hne. unfold Zod.field. rewrite lookup_insert_ne; auto. Qed.

End FieldFacts.

(** X1: the ban-user schema accepts a body exactly when [idToken] is a
    string meeting the token contract, [userId] a string of 10 to 100
    characters, [reason] a string of 5 to 500 characters and [duration]
    an integer from 1 to 36500; the parsed value carries the token, the
    user and the duration as sent and the reason trimmed. *)
Theorem BanUserSchema_accepts
  (E : Admin.Env) (b : gmap string Js.value) (v : Admin.BanUserInput) :
  Admin.BanUserSchema E b = inr v <->
  (Zod.field b "idToken" = Js.str (Admin.bu_idToken v) /\
   Admin.token_ok (Admin.bu_idToken v) = true) /\
  (Zod.field b "userId" = Js.str (Admin.bu_userId v) /\
   (10 <= String.length (Admin.bu_userId v) <= 100)%nat) /\
  (exists r, Zod.field b "reason" = Js.str r /\
             (5 <= String.length r <= 500)%nat /\
             Admin.bu_reason v = Js.trim r) /\
  (Zod.field b "duration" = Js.number (Admin.bu_duration v) /\
   1 <= Admin.bu_duration v <= 36500).
Proof.
  unfold Admin.BanUserSchema. split.
  - intros Hs. apply map_ok_inr in Hs as ([[[t u] r] d] & Hx & ->).
    apply both_inr in Hx as [Hx Hd]. apply both_inr in Hx as [Hx Hr].
    apply both_inr in Hx as [Ht Hu]. simpl.
    apply idToken_iff in Ht. apply userId_iff in Hu.
    apply reason_iff in Hr. apply int_range_iff in Hd. auto.
  - destruct v as [t u r d]. simpl. intros (Ht & Hu & Hr & Hd).
    rewrite (proj2 (idToken_iff E _ _ _) Ht), (proj2 (userId_iff E _ _ _) Hu),
      (proj2 (reason_iff E _ _ _) Hr), (proj2 (int_range_iff _ _ _ _ _) Hd).
    reflexivity.
Qed.

Lemma BanUserSchema_accepts_witness :
  Admin.BanUserSchema Sample.env
    (Sample.ban_body "token-of-alice" "victim-uid-0001" "  posting spam ")
  = inr (Admin.mkBanUser "token-of-alice" "victim-uid-0001" "posting spam" 7).
Proof.
  apply (proj2 (BanUserSchema_accepts Sample.env
                  (Sample.ban_body "token-of-alice" "victim-uid-0001"
                     "  posting spam ")
                  (Admin.mkBanUser "token-of-alice" "victim-uid-0001"
                     "posting spam" 7))).
  simpl. repeat split; try reflexivity; try lia.
  exists "  posting spam ". simpl. repeat split; try reflexivity; lia.
Defined.

(** X2: the ban-IP schema accepts a body exactly when [idToken] meets the
    token contract, [ipAddress] is a string the address matcher accepts
    as IPv4 or as IPv6, [reason] is a string of 5 to 500 characters and
    [duration] an integer from 1 to 36500; the reason is handed on
    trimmed, the rest as sent. *)
Theorem BanIPSchema_accepts
  (E : Admin.Env) (b : gmap string Js.value) (v : Admin.BanIPInput) :
  Admin.BanIPSchema E b = inr v <->
  (Zod.field b "idToken" = Js.str (Admin.bi_idToken v) /\
   Admin.token_ok (Admin.bi_idToken v) = true) /\
  (Zod.field b "ipAddress" = Js.str (Admin.bi_ipAddress v) /\
   (Admin.isValidIP E Zod.v4 (Admin.bi_ipAddress v) = true \/
    Admin.isValidIP E Zod.v6 (Admin.bi_ipAddress v) = true)) /\
  (exists r, Zod.field b "reason" = Js.str r /\
             (5 <= String.length r <= 500)%nat /\
             Admin.bi_reason v = Js.trim r) /\
  (Zod.field b "duration" = Js.number (Admin.bi_duration v) /\
   1 <= Admin.bi_duration v <= 36500).
Proof.
  unfold Admin.BanIPSchema. split.
  - intros Hs. apply map_ok_inr in Hs as ([[[t a] r] d] & Hx & ->).
    apply both_inr in Hx as [Hx Hd]. apply both_inr in Hx as [Hx Hr].
    apply both_inr in Hx as [Ht Ha]. simpl.
    apply idToken_iff in Ht. apply ipAddress_iff in Ha.
    apply reason_iff in Hr. apply int_range_iff in Hd. auto.
  - destruct v as [t a r d]. simpl. intros (Ht & Ha & Hr & Hd).
    rewrite (proj2 (idToken_iff E _ _ _) Ht), (proj2 (ipAddress_iff E _ _ _) Ha),
      (proj2 (reason_iff E _ _ _) Hr), (proj2 (int_range_iff _ _ _ _ _) Hd).
    reflexivity.
Qed.

Lemma BanIPSchema_accepts_witness :
  Admin.BanIPSchema Sample.env (Sample.banip_body "token-of-alice" "port scanning")
  = inr (Admin.mkBanIP "token-of-alice" "1.2.3.4" "port scanning" 7).
Proof.
  apply (proj2 (BanIPSchema_accepts Sample.env
                  (Sample.banip_body "token-of-alice" "port scanning")
                  (Admin.mkBanIP "token-of-alice" "1.2.3.4" "port scanning" 7))).
  simpl. repeat split; try reflexivity; try lia; auto.
  exists "port scanning". simpl. repeat split; try reflexivity; lia.
Defined.

(** X3: the license schema accepts a body exactly when [idToken] meets
    the token contract, [plan] is one of the strings Free, Classic and
    Pro, and [validityDays] is an integer from 1 to 3650; all three are
    handed on as sent. *)
Theorem CreateLicenseSchema_accepts
  (E : Admin.Env) (b : gmap string Js.value) (v : Admin.CreateLicenseInput) :
  Admin.CreateLicenseSchema E b = inr v <->
  (Zod.field b "idToken" = Js.str (Admin.cl_idToken v) /\
   Admin.token_ok (Admin.cl_idToken v) = true) /\
  (Zod.field b "plan" = Js.str (Admin.cl_plan v) /\
   In (Admin.cl_plan v) ["Free"; "Classic"; "Pro"]) /\
  (Zod.field b "validityDays" = Js.number (Admin.cl_validityDays v) /\
   1 <= Admin.cl_validityDays v <= 3650).
Proof.
  unfold Admin.CreateLicenseSchema. split.
  - intros Hs. apply map_ok_inr in Hs as ([[t p] d] & Hx & ->).
    apply both_inr in Hx as [Hx Hd]. apply both_inr in Hx as [Ht Hp]. simpl.
    apply idToken_iff in Ht. apply enum_iff in Hp. apply int_range_iff in Hd.
    auto.
  - destruct v as [t p d]. simpl. intros (Ht & Hp & Hd).
    rewrite (proj2 (idToken_iff E _ _ _) Ht), (proj2 (enum_iff ["Free"; "Classic"; "Pro"] _ _ _) Hp),
      (proj2 (int_range_iff _ _ _ _ _) Hd).
    reflexivity.
Qed.

Lemma CreateLicenseSchema_accepts_witness :
  Admin.CreateLicenseSchema Sample.env
    (Scenario.license_body "token-of-alice" "Pro" 365)
  = inr (Admin.mkCreateLicense "token-of-alice" "Pro" 365).
Proof.
  apply (proj2 (CreateLicenseSchema_accepts Sample.env
                  (Scenario.license_body "token-of-alice" "Pro" 365)
                  (Admin.mkCreateLicense "token-of-alice" "Pro" 365))).
  simpl. repeat split; try reflexivity; try lia; auto.
Defined.

(** X4: the schema written inline in the delete-user handler accepts a
    body exactly when [idToken] meets the token contract and [userId] is
    a string of 10 to 100 characters, and the verify schema exactly when
    [idToken] meets the token contract; both hand the fields on as
    sent. *)
Theorem DeleteUserSchema_accepts (E : Admin.Env) (b : gmap string Js.value) :
  (forall v,
     Admin.DeleteUserSchema E b = inr v <->
     (Zod.field b "idToken" = Js.str (Admin.du_idToken v) /\
      Admin.token_ok (Admin.du_idToken v) = true) /\
     (Zod.field b "userId" = Js.str (Admin.du_userId v) /\
      (10 <= String.length (Admin.du_userId v) <= 100)%nat)) /\
  (forall v,
     Admin.VerifyAdminSchema E b = inr v <->
     Zod.field b "idToken" = Js.str (Admin.va_idToken v) /\
     Admin.token_ok (Admin.va_idToken v) = true).
Proof.
  split; intros v.
  - unfold Admin.DeleteUserSchema. split.
    + intros Hs. apply map_ok_inr in Hs as ([t u] & Hx & ->).
      apply both_inr in Hx as [Ht Hu]. simpl.
      apply idToken_iff in Ht. apply userId_iff in Hu. auto.
    + destruct v as [t u]. simpl. intros (Ht & Hu).
      rewrite (proj2 (idToken_iff E _ _ _) Ht), (proj2 (userId_iff E _ _ _) Hu).
      reflexivity.
  - unfold Admin.VerifyAdminSchema. split.
    + intros Hs. apply map_ok_inr in Hs as (t & Hx & ->). simpl.
      apply idToken_iff in Hx. exact Hx.
    + destruct v as [t]. simpl. intros Ht.
      rewrite (proj2 (idToken_iff E _ _ _) Ht). reflexivity.
Qed.

Lemma DeleteUserSchema_accepts_witness :
  Admin.DeleteUserSchema Sample.env
    (Scenario.delete_body "token-of-alice" "victim-uid-0001")
  = inr (Admin.mkDeleteUser "token-of-alice" "victim-uid-0001").
Proof.
  apply (proj1 (DeleteUserSchema_accepts Sample.env
                  (Scenario.delete_body "token-of-alice" "victim-uid-0001"))
           (Admin.mkDeleteUser "token-of-alice" "victim-uid-0001")).
  simpl. repeat split; try reflexivity; lia.
Defined.

(* --------------------------------------------------------------------- *)
(** *** The privileged endpoints, case by case *)

Ltac unfold_handler :=
  unfold Admin.handler, Admin.handleVerifyAdmin, Admin.handleBanUser,
    Admin.handleGetAllUsers, Admin.handleCreateLicense, Admin.handleBanIP,
    Admin.handleDeleteUser, Admin.try_catch, Admin.bind, Admin.parse,
    Admin.lift, Admin.call, Admin.ret, Admin.throw, Admin.accepted_token.

Ltac split_service E :=
  match goal with
  | |- context [Admin.banUser E ?a ?b ?c ?d ?s] =>
      destruct (Admin.banUser E a b c d s) as [[x|x] s1]
  | |- context [Admin.banIP E ?a ?b ?c ?d ?s] =>
      destruct (Admin.banIP E a b c d s) as [[x|x] s1]
  | |- context [Admin.createLicense E ?a ?b ?c ?s] =>
      destruct (Admin.createLicense E a b c s) as [[x|x] s1]
  | |- context [Admin.deleteUser E ?a ?b ?s] =>
      destruct (Admin.deleteUser E a b s) as [[x|x] s1]
  | |- context [Admin.getAllUsers E ?s] =>
      destruct (Admin.getAllUsers E s) as [[x|x] s1]
  end.

(** Splits a handler run into its paths: validation fails, the provider
    rejects the token, the subject is no admin, the service throws or
    returns. *)
Ltac handler_paths E s :=
  unfold_handler;
  match goal with
  | |- context [match ?sch with inl _ => _ | inr _ => _ end] =>
      destruct sch as [i|v] eqn:Hs
  end;
  [ | rewrite verifyAdmin_run;
      match goal with
      | |- context [Admin.verifyIdToken E ?t] =>
          destruct (Admin.verifyIdToken E t) as [e|uid] eqn:Hv
      end;
      [ | match goal with
          | |- context [Admin.is_admin s ?u] =>
              destruct (Admin.is_admin s u) eqn:Ha
          end;
          [ try split_service E | ] ] ].

(** X5: no service method is ever called for a caller the gate has not
    passed. On every endpoint, a service call in the trace means that the
    request was accepted with some token, that the provider verified it
    as a subject and that the subject's record passes the admin test in
    the store the request met; and a run without a service call leaves
    the store as it was. *)
Theorem gate_before_service
  (E : Admin.Env) (ep : Admin.endpoint) (req : Admin.Request) (s : Store) :
  let '(t, s', _) := Admin.handler E ep req s in
  (forall ev, In ev t -> Notions.is_service ev = true ->
     exists tok uid,
       Admin.accepted_token E ep req = Some tok /\
       Admin.verifyIdToken E tok = inr uid /\
       Admin.is_admin s uid = true) /\
  ((forall ev, In ev t -> Notions.is_service ev = false) -> s' = s).
Proof.
  destruct ep; handler_paths E s; cbn.
  all: split;
    [ intros ev Hin Hsvc;
      repeat (destruct Hin as [<-|Hin]; [try discriminate|]);
      try contradiction; eauto
    | intros Hnone;
      try reflexivity;
      match type of Hnone with
      | forall ev, _ = ev \/ _ = ev \/ ?c = ev \/ False -> _ =>
          specialize (Hnone c (or_intror (or_intror (or_introl eq_refl))));
          discriminate
      end ].
Qed.

Lemma gate_before_service_witness :
  exists tok uid,
    Admin.accepted_token Sample.env Admin.DeleteUser
      (Sample.post (Scenario.delete_body "token-of-alice" "victim-uid-0001"))
    = Some tok /\
    Admin.verifyIdToken Sample.env tok = inr uid /\
    Admin.is_admin Sample.store uid = true.
Proof.
  pose proof (gate_before_service Sample.env Admin.DeleteUser
                (Sample.post (Scenario.delete_body "token-of-alice"
                                "victim-uid-0001"))
                Sample.store) as H.
  destruct (Admin.handler Sample.env Admin.DeleteUser
              (Sample.post (Scenario.delete_body "token-of-alice"
                              "victim-uid-0001"))
              Sample.store) as [[t s'] r] eqn:Hrun.
  vm_compute in Hrun. injection Hrun as <- _ _.
  apply (proj1 H (Admin.svc_deleteUser "alice-uid-0001" "victim-uid-0001")).
  - simpl. auto.
  - reflexivity.
Defined.

(** X6: the verify endpoint never changes the store, and it answers
    [{success: true, adminUid}] exactly when the body's [idToken] meets
    the token contract, the provider verifies it as [adminUid] and that
    subject's record passes the admin test; every other answer has status
    400 or 401. *)
Theorem handleVerifyAdmin_success
  (E : Admin.Env) (req : Admin.Request) (s : Store) :
  let '(_, s', r) := Admin.handleVerifyAdmin E req s in
  s' = s /\
  (forall uid,
     r = json [("success", r_bool true); ("adminUid", r_text uid)] <->
     exists tok,
       Zod.field (Admin.req_body req) "idToken" = Js.str tok /\
       Admin.token_ok tok = true /\
       Admin.verifyIdToken E tok = inr uid /\
       Admin.is_admin s uid = true) /\
  ((exists uid, r = json [("success", r_bool true); ("adminUid", r_text uid)])
   \/ status r = 400 \/ status r = 401).
Proof.
  unfold Admin.handleVerifyAdmin, Admin.try_catch, Admin.bind, Admin.parse,
    Admin.ret, Admin.throw.
  destruct (Admin.VerifyAdminSchema E (Admin.req_body req)) as [i|[tok]] eqn:Hs.
  - cbn. split; [reflexivity|]. split; [|auto].
    intros uid. split; [discriminate|].
    intros (tok & Hf & Hok & _).
    assert (Hacc : Admin.VerifyAdminSchema E (Admin.req_body req)
                   = inr (Admin.mkVerifyAdmin tok)).
    { unfold Admin.VerifyAdminSchema.
      rewrite (proj2 (idToken_iff E _ _ _) (conj Hf Hok)). reflexivity. }
    congruence.
  - unfold Admin.VerifyAdminSchema in Hs.
    apply map_ok_inr in Hs as (t & Hx & [= <-]).
    apply idToken_iff in Hx as [Hf Hok].
    rewrite verifyAdmin_run. cbn [Admin.va_idToken].
    destruct (Admin.verifyIdToken E tok) as [e|uid] eqn:Hv.
    + cbn. split; [reflexivity|]. split.
      * intros uid. split; [destruct (Admin.is_ZodError e); discriminate|].
        intros (tok' & Hf' & _ & Hv' & _). rewrite Hf in Hf'.
        injection Hf' as <-. congruence.
      * destruct (Admin.is_ZodError e); auto.
    + destruct (Admin.is_admin s uid) eqn:Ha; cbn.
      * split; [reflexivity|]. split; [|eauto].
        intros uid'. split.
        -- intros [= <-]. eauto.
        -- intros (tok' & Hf' & _ & Hv' & _). rewrite Hf in Hf'.
           injection Hf' as <-. congruence.
      * split; [reflexivity|]. split; [|auto].
        intros uid'. split; [discriminate|].
        intros (tok' & Hf' & _ & Hv' & Ha'). rewrite Hf in Hf'.
        injection Hf' as <-. congruence.
Qed.

Lemma handleVerifyAdmin_success_witness :
  snd (Admin.handleVerifyAdmin Sample.env
         (Sample.post (Sample.token_body "token-of-alice")) Sample.store)
  = json [("success", r_bool true); ("adminUid", r_text "alice-uid-0001")].
Proof.
  pose proof (handleVerifyAdmin_success Sample.env
                (Sample.post (Sample.token_body "token-of-alice"))
                Sample.store) as H.
  destruct (Admin.handleVerifyAdmin Sample.env
              (Sample.post (Sample.token_body "token-of-alice")) Sample.store)
    as [[t s'] r].
  destruct H as (_ & H & _). simpl. apply H.
  exists "token-of-alice". repeat split; reflexivity.
Defined.

(** X7: a key that the endpoint's schema does not name has no effect:
    adding it to the body, with any value, leaves the trace, the store
    and the response of every endpoint the same. An [isAdmin] or
    [adminUid] field smuggled into a request is one such key. *)
Theorem unknown_keys_ignored
  (E : Admin.Env) (ep : Admin.endpoint) (req : Admin.Request)
  (k : string) (v : Js.value) (s : Store) :
  ~ In k (Notions.body_fields ep) ->
  Admin.handler E ep (Notions.with_key k v req) s = Admin.handler E ep req s.
Proof.
  intros Hk.
  assert (Hf : forall f, In f (Notions.body_fields ep) ->
                 Zod.field (<[k := v]> (Admin.req_body req)) f
                 = Zod.field (Admin.req_body req) f).
  { intros f Hin. apply field_with_key. intros ->. contradiction. }
  destruct ep; simpl in Hf;
    unfold Admin.handler, Admin.handleVerifyAdmin, Admin.handleBanUser,
      Admin.handleGetAllUsers, Admin.handleCreateLicense, Admin.handleBanIP,
      Admin.handleDeleteUser, Admin.VerifyAdminSchema, Admin.BanUserSchema,
      Admin.CreateLicenseSchema, Admin.BanIPSchema, Admin.DeleteUserSchema,
      Notions.with_key; cbn [Admin.req_body Admin.authorization];
    rewrite ?(Hf "idToken"), ?(Hf "userId"), ?(Hf "reason"),
      ?(Hf "duration"), ?(Hf "plan"), ?(Hf "validityDays"),
      ?(Hf "ipAddress") by (simpl; tauto);
    reflexivity.
Qed.

Lemma unknown_keys_ignored_witness :
  Admin.handler Sample.env Admin.BanUser
    (Notions.with_key "isAdmin" (Js.boolean true)
       (Sample.post (Sample.ban_body "token-of-carol" "victim-uid-0001"
                       "posting spam")))
    Sample.store
  = Admin.handler Sample.env Admin.BanUser
      (Sample.post (Sample.ban_body "token-of-carol" "victim-uid-0001"
                      "posting spam"))
      Sample.store.
Proof.
  apply (unknown_keys_ignored Sample.env Admin.BanUser
           (Sample.post (Sample.ban_body "token-of-carol" "victim-uid-0001"
                           "posting spam"))
           "isAdmin" (Js.boolean true) Sample.store).
  simpl. intros [H|[H|[H|[H|[]]]]]; discriminate.
Defined.

(** X8: every service call carries arguments within the schemas' bounds.
    A user identifier has 10 to 100 characters, a ban duration lies in
    1 to 36500 and a license validity in 1 to 3650, a plan is one of the
    three tiers, an address is one the matcher accepts, and a ban reason
    has at most 500 characters and no white space at either end. *)
Theorem service_calls_validated
  (E : Admin.Env) (ep : Admin.endpoint) (req : Admin.Request) (s : Store) :
  forall ev, In ev (fst (fst (Admin.handler E ep req s))) ->
             Notions.validated_call E ev.
Proof.
  assert (Hreason : forall p x r',
             Admin.zstring E Admin.reason_checks p x = inr r' ->
             (String.length r' <= 500)%nat /\ Js.trim r' = r').
  { intros p x r' Hr. apply reason_iff in Hr as (r & _ & Hlen & ->).
    split; [pose proof (trim_length r); lia | apply trim_idem]. }
  destruct ep; handler_paths E s; cbn.
  all: intros ev Hin;
    repeat (destruct Hin as [<-|Hin]; [try exact I|]); try contradiction.
  - unfold Admin.BanUserSchema in Hs.
    apply map_ok_inr in Hs as ([[[t u] r] d] & Hx & ->).
    apply both_inr in Hx as [Hx Hd]. apply both_inr in Hx as [Hx Hr].
    apply both_inr in Hx as [_ Hu]. cbn.
    apply userId_iff in Hu as [_ Hu]. apply int_range_iff in Hd as [_ Hd].
    apply Hreason in Hr. tauto.
  - unfold Admin.BanUserSchema in Hs.
    apply map_ok_inr in Hs as ([[[t u] r] d] & Hx & ->).
    apply both_inr in Hx as [Hx Hd]. apply both_inr in Hx as [Hx Hr].
    apply both_inr in Hx as [_ Hu]. cbn.
    apply userId_iff in Hu as [_ Hu]. apply int_range_iff in Hd as [_ Hd].
    apply Hreason in Hr. tauto.
  - unfold Admin.CreateLicenseSchema in Hs.
    apply map_ok_inr in Hs as ([[t p] d] & Hx & ->).
    apply both_inr in Hx as [Hx Hd]. apply both_inr in Hx as [_ Hp].
    apply enum_iff in Hp as [_ Hp]. apply int_range_iff in Hd as [_ Hd].
    cbn [Notions.validated_call Admin.cl_plan Admin.cl_validityDays]. tauto.
  - unfold Admin.CreateLicenseSchema in Hs.
    apply map_ok_inr in Hs as ([[t p] d] & Hx & ->).
    apply both_inr in Hx as [Hx Hd]. apply both_inr in Hx as [_ Hp].
    apply enum_iff in Hp as [_ Hp]. apply int_range_iff in Hd as [_ Hd].
    cbn [Notions.validated_call Admin.cl_plan Admin.cl_validityDays]. tauto.
  - unfold Admin.BanIPSchema in Hs.
    apply map_ok_inr in Hs as ([[[t a] r] d] & Hx & ->).
    apply both_inr in Hx as [Hx Hd]. apply both_inr in Hx as [Hx Hr].
    apply both_inr in Hx as [_ Hi]. cbn.
    apply ipAddress_iff in Hi as [_ Hi]. apply int_range_iff in Hd as [_ Hd].
    apply Hreason in Hr. tauto.
  - unfold Admin.BanIPSchema in Hs.
    apply map_ok_inr in Hs as ([[[t a] r] d] & Hx & ->).
    apply both_inr in Hx as [Hx Hd]. apply both_inr in Hx as [Hx Hr].
    apply both_inr in Hx as [_ Hi]. cbn.
    apply ipAddress_iff in Hi as [_ Hi]. apply int_range_iff in Hd as [_ Hd].
    apply Hreason in Hr. tauto.
  - unfold Admin.DeleteUserSchema in Hs.
    apply map_ok_inr in Hs as ([t u] & Hx & ->).
    apply both_inr in Hx as [_ Hu]. apply userId_iff in Hu as [_ Hu]. exact Hu.
  - unfold Admin.DeleteUserSchema in Hs.
    apply map_ok_inr in Hs as ([t u] & Hx & ->).
    apply both_inr in Hx as [_ Hu]. apply userId_iff in Hu as [_ Hu]. exact Hu.
Qed.

Lemma service_calls_validated_witness :
  Notions.validated_call Sample.env
    (Admin.svc_banUser "alice-uid-0001" "victim-uid-0001" "posting spam" 7).
Proof.
  apply (service_calls_validated Sample.env Admin.BanUser
           (Sample.post (Sample.ban_body "token-of-alice" "victim-uid-0001"
                           "  posting spam "))
           Sample.store).
  vm_compute. auto.
Defined.

(** X9: the list-users endpoint takes a token from the request exactly
    when the [Authorization] header is present and starts with
    ["Bearer "] and the rest of the header, with the white space around
    it stripped, has 10 to 3000 characters; that stripped rest is the
    token. *)
Theorem bearerToken_accepts (req : Admin.Request) (tok : string) :
  Admin.bearerToken req = inr tok <->
  exists header,
    Admin.authorization req = Some header /\
    Js.startsWith "Bearer " header = true /\
    tok = Js.trim (Js.slice 7 header) /\
    (10 <= String.length tok <= 3000)%nat.
Proof.
  unfold Admin.bearerToken. split.
  - destruct (Admin.authorization req) as [header|]; [|discriminate].
    destruct (Js.startsWith "Bearer " header) eqn:Hp; [|discriminate].
    destruct (String.eqb (Js.trim (Js.slice 7 header)) "") eqn:H0;
      [discriminate|].
    destruct (String.length (Js.trim (Js.slice 7 header)) <? 10)%nat eqn:H1;
      [discriminate|].
    destruct (3000 <? String.length (Js.trim (Js.slice 7 header)))%nat eqn:H2;
      [discriminate|].
    cbn. intros [= <-]. exists header.
    apply Nat.ltb_ge in H1, H2. auto.
  - intros (header & -> & -> & -> & [H1 H2]).
    assert (H0 : String.eqb (Js.trim (Js.slice 7 header)) "" = false).
    { apply String.eqb_neq. intros Heq. rewrite Heq in H1. simpl in H1. lia. }
    apply Nat.ltb_ge in H1, H2. rewrite H0, H1, H2. reflexivity.
Qed.

Lemma bearerToken_accepts_witness :
  Admin.bearerToken (Sample.get "Bearer   token-of-alice  ")
  = inr "token-of-alice".
Proof.
  apply (proj2 (bearerToken_accepts (Sample.get "Bearer   token-of-alice  ")
                  "token-of-alice")).
  exists "Bearer   token-of-alice  ". simpl. repeat split; try reflexivity; lia.
Defined.

(** X10: every token the body schemas accept is accepted unchanged by
    the list-users endpoint when it is sent as ["Bearer " + token]. (The
    converse fails: the header path has no charset check.) *)
Theorem schema_token_accepted_as_bearer
  (b : gmap string Js.value) (tok : string) :
  Admin.token_ok tok = true ->
  Admin.bearerToken (Admin.mkRequest b (Some ("Bearer " ++ tok)%string))
  = inr tok.
Proof.
  intros Hok. unfold Admin.token_ok in Hok.
  apply andb_true_iff in Hok as [Hok H3]. apply andb_true_iff in Hok as [H1 H2].
  apply Nat.leb_le in H1, H2.
  unfold Admin.bearerToken. cbn [Admin.authorization].
  change (Js.startsWith "Bearer " ("Bearer " ++ tok)%string)
    with (String.prefix "" tok).
  change (Js.slice 7 ("Bearer " ++ tok)%string) with tok.
  rewrite (token_format_no_space tok H3).
  assert (H0 : String.eqb tok "" = false).
  { apply String.eqb_neq. intros ->. simpl in H1. lia. }
  apply Nat.ltb_ge in H1, H2. rewrite H0, H1, H2.
  destruct tok; reflexivity.
Qed.

Lemma schema_token_accepted_as_bearer_witness :
  Admin.bearerToken (Admin.mkRequest ∅ (Some "Bearer token-of-alice"))
  = inr "token-of-alice".
Proof.
  apply (schema_token_accepted_as_bearer ∅ "token-of-alice"). reflexivity.
Defined.

(** X11: the list-users endpoint never answers 400. It answers
    [{success: true, users}] exactly when the header token is usable,
    the provider verifies it, the subject passes the admin test and
    [getAllUsers] returns, and [users] is then the list that
    [getAllUsers] returned; every other answer has status 401 and the
    label Unauthorized. A request without a usable header token is
    answered before anything is called, the store untouched. *)
Theorem handleGetAllUsers_statuses
  (E : Admin.Env) (req : Admin.Request) (s : Store) :
  let '(t, s', r) := Admin.handleGetAllUsers E req s in
  (forall us,
     r = json [("success", r_bool true); ("users", r_users us)] <->
     exists tok uid,
       Admin.bearerToken req = inr tok /\
       Admin.verifyIdToken E tok = inr uid /\
       Admin.is_admin s uid = true /\
       fst (Admin.getAllUsers E s) = inr us) /\
  ((exists us, r = json [("success", r_bool true); ("users", r_users us)])
   \/ (status r = 401 /\
       exists m, body r = [("error", r_text "Unauthorized"); ("message", m)])) /\
  (forall tok uid,
     Admin.bearerToken req = inr tok ->
     Admin.verifyIdToken E tok = inr uid ->
     Admin.is_admin s uid = true ->
     s' = snd (Admin.getAllUsers E s) /\
     t = [Admin.auth_verifyIdToken tok; Admin.users_doc_get uid;
          Admin.svc_getAllUsers]) /\
  (forall e, Admin.bearerToken req = inl e ->
     t = [] /\ s' = s /\
     r = status_json 401 [("error", r_text "Unauthorized");
                          ("message", Admin.message_or "Operation failed" e)]).
Proof.
  unfold Admin.handleGetAllUsers, Admin.try_catch, Admin.bind, Admin.lift,
    Admin.call, Admin.ret, Admin.throw.
  destruct (Admin.bearerToken req) as [e|tok] eqn:Hb.
  - cbn. split; [|split; [right; eauto|split]].
    + intros us. split; [discriminate|]. intros (t & u & Ht & _). discriminate.
    + intros t u Ht. discriminate.
    + intros e' [= <-]. auto.
  - rewrite verifyAdmin_run.
    destruct (Admin.verifyIdToken E tok) as [e|uid] eqn:Hv; cbn.
    + split; [|split; [right; eauto|split]].
      * intros us. split; [discriminate|].
        intros (t & u & [= <-] & Hv' & _). congruence.
      * intros t u [= <-] Hv'. congruence.
      * discriminate.
    + destruct (Admin.is_admin s uid) eqn:Ha; cbn.
      * destruct (Admin.getAllUsers E s) as [[e|us] s1] eqn:Hg; cbn.
        -- split; [|split; [right; eauto|split]].
           ++ intros us. split; [discriminate|].
              intros (t & u & _ & _ & _ & Hus). discriminate.
           ++ intros t u [= <-] Hv'. rewrite Hv in Hv'. injection Hv' as <-. auto.
           ++ discriminate.
        -- split; [|split; [left; eauto|split]].
           ++ intros us'. split.
              ** intros [= <-]. exists tok, uid. auto.
              ** intros (t & u & _ & _ & _ & [= <-]). reflexivity.
           ++ intros t u [= <-] Hv'. rewrite Hv in Hv'. injection Hv' as <-. auto.
           ++ discriminate.
      * split; [|split; [right; eauto|split]].
        -- intros us. split; [discriminate|].
           intros (t & u & [= <-] & Hv' & Ha' & _).
           rewrite Hv in Hv'. injection Hv' as <-. congruence.
        -- intros t u [= <-] Hv' Ha'.
           rewrite Hv in Hv'. injection Hv' as <-. congruence.
        -- discriminate.
Qed.

Lemma handleGetAllUsers_statuses_witness :
  Admin.handleGetAllUsers Sample.env (Sample.get "Basic dXNlcjpwdw==")
    Sample.store
  = ([], Sample.store,
     status_json 401
       [("error", r_text "Unauthorized");
        ("message", r_text "Missing or invalid authorization header")]).
Proof.
  pose proof (handleGetAllUsers_statuses Sample.env
                (Sample.get "Basic dXNlcjpwdw==") Sample.store) as H.
  destruct (Admin.handleGetAllUsers Sample.env
              (Sample.get "Basic dXNlcjpwdw==") Sample.store) as [[t s'] r].
  destruct H as (_ & _ & _ & H).
  destruct (H (Admin.Error "Missing or invalid authorization header") eq_refl)
    as (-> & -> & ->).
  reflexivity.
Defined.

(* --------------------------------------------------------------------- *)
(** *** The network-abuse guard, across handlers *)

(** X12: a ban check deletes at most one Ban Record, and only an expired
    record of the address it was asked about: with document identifiers
    unique, every record of another address and every record that has no
    expiry or an expiry not before the current time is still there
    afterwards. *)
Theorem checkBan_deletes_only_expired
  (amb : IpDetection.Ambient) (req : IpDetection.Body) (s : Store) :
  NoDup (Firestore.ids (ip_bans s)) ->
  let s' := snd (IpDetection.handleCheckIPBan amb req s) in
  (length (ip_bans s) <= S (length (ip_bans s')))%nat /\
  (forall e, In e (ip_bans s') -> In e (ip_bans s)) /\
  (forall e, In e (ip_bans s) ->
     IpDetection.ipAddress req <> Some (IPBan.ipAddress (snd e)) \/
     Notions.live (IpDetection.clock amb 0) (snd e) ->
     In e (ip_bans s')).
Proof.
  intros _ s'. subst s'. rewrite handleCheckIPBan_run.
  destruct (Js.falsy_string (IpDetection.ipAddress req)); simpl;
    repeat split; auto; lia.
Qed.

Lemma checkBan_deletes_only_expired_witness :
  In ("ban-doc-0003",
      IPBan.Build "1.2.3.4" "credential stuffing" 500 (Some 9000))
     (ip_bans (snd (IpDetection.handleCheckIPBan (Sample.at_time 2000 "unused")
                      (Sample.check "1.2.3.4" None) Scenario.stacked))).
Proof.
  apply (checkBan_deletes_only_expired (Sample.at_time 2000 "unused")
           (Sample.check "1.2.3.4" None) Scenario.stacked).
  - apply (bool_decide_unpack _). vm_compute. exact I.
  - simpl. auto.
  - right. intros t [= <-]. simpl. lia.
Defined.

(** X14: a signup record moves an address towards its account limit by
    exactly one. For a request with user and address whose write
    succeeds under an unused identifier, [handleRecordUserIP] raises
    the number of Address-Usage Records of its address by one and
    leaves the number of every other address. *)
Theorem signup_raises_count
  (amb : IpDetection.Ambient) (req : IpDetection.Body) (s : Store)
  (user address : string) :
  IpDetection.userId req = Some user -> user <> "" ->
  IpDetection.ipAddress req = Some address -> address <> "" ->
  IpDetection.store_up amb = true ->
  ~ In (IpDetection.autoId amb) (Firestore.ids (user_ips s)) ->
  forall a,
    length (IpDetection.usages_of a
              (snd (IpDetection.handleRecordUserIP amb req s)))
    = (length (IpDetection.usages_of a s)
       + if String.eqb address a then 1 else 0)%nat.
Proof.
  intros Hu Hune Ha Hane Hup Hfresh a.
  rewrite (handleRecordUserIP_run amb req s user address Hu Hune Ha Hane Hup).
  unfold IpDetection.usages_of. cbn [snd user_ips with_user_ips].
  rewrite where_set_count by exact Hfresh. reflexivity.
Qed.

Lemma signup_raises_count_witness :
  length (IpDetection.usages_of "1.2.3.4"
            (snd (IpDetection.handleRecordUserIP (Sample.at_time 50 "ip-doc-0009")
                    (Scenario.signup "user-0009" "1.2.3.4")
                    (Sample.guard_store Sample.two_accounts))))
  = 3%nat.
Proof.
  rewrite (signup_raises_count (Sample.at_time 50 "ip-doc-0009")
             (Scenario.signup "user-0009" "1.2.3.4")
             (Sample.guard_store Sample.two_accounts)
             "user-0009" "1.2.3.4"
             eq_refl ltac:(discriminate) eq_refl ltac:(discriminate) eq_refl).
  - reflexivity.
  - simpl. intros [H|[H|[]]]; discriminate.
Defined.

(** X15: recording an address for one user never touches a record of a
    different user-address pair. With document identifiers unique and
    the generated identifier unused, every such record is found
    unchanged, under its identifier, after the signup handler and after
    the login handler. *)
Theorem other_pairs_untouched
  (amb : IpDetection.Ambient) (req : IpDetection.Body) (s : Store)
  (user address : string) :
  IpDetection.userId req = Some user -> user <> "" ->
  IpDetection.ipAddress req = Some address -> address <> "" ->
  NoDup (Firestore.ids (user_ips s)) ->
  ~ In (IpDetection.autoId amb) (Firestore.ids (user_ips s)) ->
  forall e,
    In e (user_ips s) ->
    IpDetection.same_pair user address (snd e) = false ->
    In e (user_ips (snd (IpDetection.handleRecordUserIP amb req s))) /\
    In e (user_ips (snd (IpDetection.handleUpdateUserIPLogin amb req s))).
Proof.
  intros Hu Hune Ha Hane _ Hfresh e Hin _. split.
  - destruct (IpDetection.store_up amb) eqn:Hup.
    + rewrite (handleRecordUserIP_run amb req s user address
                 Hu Hune Ha Hane Hup).
      cbn [snd user_ips with_user_ips]. apply in_set_fresh; auto.
    + unfold IpDetection.handleRecordUserIP, IpDetection.write.
      rewrite Hup. destruct (_ || _); exact Hin.
  - rewrite handleUpdateUserIPLogin_run. destruct (_ || _); exact Hin.
Qed.

Lemma other_pairs_untouched_witness :
  In ("ip-doc-0002", Sample.usage "user-0002")
     (user_ips (snd (IpDetection.handleRecordUserIP
                       (Sample.at_time 50 "ip-doc-0009")
                       (Sample.usage_of "user-0001" "1.2.3.4")
                       (Sample.guard_store Sample.two_accounts)))).
Proof.
  apply (other_pairs_untouched (Sample.at_time 50 "ip-doc-0009")
           (Sample.usage_of "user-0001" "1.2.3.4")
           (Sample.guard_store Sample.two_accounts)
           "user-0001" "1.2.3.4"
           eq_refl ltac:(discriminate) eq_refl ltac:(discriminate)).
  - apply (bool_decide_unpack _). vm_compute. exact I.
  - simpl. intros [H|[H|[]]]; discriminate.
  - simpl. auto.
  - reflexivity.
Defined.

(** X16: the guard endpoints, which take no token, cannot change who is
    an admin. Each of the four leaves the users collection as it was, so
    the gate's verdict on every subject is the same after as before; the
    ban check leaves the Address-Usage Records alone, and the two
    recording handlers leave the Ban Records alone. *)
Theorem guard_leaves_privileges
  (amb : IpDetection.Ambient) (req : IpDetection.Body) (s : Store) :
  let after_ban := snd (IpDetection.handleCheckIPBan amb req s) in
  let after_limit := snd (IpDetection.handleCheckIPLimit req s) in
  let after_signup := snd (IpDetection.handleRecordUserIP amb req s) in
  let after_login := snd (IpDetection.handleUpdateUserIPLogin amb req s) in
  (forall s', In s' [after_ban; after_limit; after_signup; after_login] ->
     users s' = users s /\
     forall uid, Admin.is_admin s' uid = Admin.is_admin s uid) /\
  user_ips after_ban = user_ips s /\
  ip_bans after_signup = ip_bans s /\
  ip_bans after_login = ip_bans s.
Proof.
  assert (Hgate : forall s', users s' = users s ->
             users s' = users s /\
             forall uid, Admin.is_admin s' uid = Admin.is_admin s uid).
  { intros s' Hs. split; [exact Hs|]. intros uid. unfold Admin.is_admin.
    rewrite Hs. reflexivity. }
  assert (Hban : snd (IpDetection.handleCheckIPBan amb req s) = s).
  { rewrite handleCheckIPBan_run. destruct (Js.falsy_string _); reflexivity. }
  assert (Hlimit : snd (IpDetection.handleCheckIPLimit req s) = s).
  { rewrite handleCheckIPLimit_run. destruct (_ || _); reflexivity. }
  assert (Hlogin : snd (IpDetection.handleUpdateUserIPLogin amb req s) = s).
  { rewrite handleUpdateUserIPLogin_run. destruct (_ || _); reflexivity. }
  assert (Hsignup : users (snd (IpDetection.handleRecordUserIP amb req s))
                    = users s /\
                    ip_bans (snd (IpDetection.handleRecordUserIP amb req s))
                    = ip_bans s).
  { unfold IpDetection.handleRecordUserIP, IpDetection.write.
    destruct (_ || _); [auto|]. destruct (IpDetection.store_up amb); auto. }
  cbn zeta. rewrite Hban, Hlimit, Hlogin. split; [|tauto].
  intros s' [<-|[<-|[<-|[<-|[]]]]]; apply Hgate; tauto.
Qed.

Lemma guard_leaves_privileges_witness :
  Admin.is_admin
    (snd (IpDetection.handleRecordUserIP (Sample.at_time 50 "ip-doc-0009")
            (Scenario.signup "carol-uid-0003" "1.2.3.4") Sample.store))
    "carol-uid-0003"
  = false.
Proof.
  rewrite (proj2 (proj1 (guard_leaves_privileges
                           (Sample.at_time 50 "ip-doc-0009")
                           (Scenario.signup "carol-uid-0003" "1.2.3.4")
                           Sample.store)
                    _ (or_intror (or_intror (or_introl eq_refl))))).
  reflexivity.
Defined.

(** X17: the answers of the guard endpoints by status. Each answers 400
    exactly when a field it requires is missing or falsy: the address
    for the ban check; the address or [maxAccounts], 0 included, for the
    limit check; the user or the address, the empty string included,
    for the two recording handlers. Past that guard the ban check, the
    limit check and the login handler answer 500, because the query
    helper they call first does not exist, and the signup handler
    answers 200, or 500 when the write fails. Only a 200 answer of the
    signup handler changes the store. *)
Theorem guard_statuses
  (amb : IpDetection.Ambient) (req : IpDetection.Body) (s : Store) :
  let no_address := Js.falsy_string (IpDetection.ipAddress req) in
  let no_user := Js.falsy_string (IpDetection.userId req) in
  let no_limit := Js.falsy_number (IpDetection.maxAccounts req) in
  let ban := IpDetection.handleCheckIPBan amb req s in
  let limit := IpDetection.handleCheckIPLimit req s in
  let signup := IpDetection.handleRecordUserIP amb req s in
  let login := IpDetection.handleUpdateUserIPLogin amb req s in
  (status (fst ban) = (if no_address then 400 else 500) /\ snd ban = s) /\
  (status (fst limit) = (if no_address || no_limit then 400 else 500) /\
   snd limit = s) /\
  (status (fst login) = (if no_user || no_address then 400 else 500) /\
   snd login = s) /\
  (status (fst signup)
   = (if no_user || no_address then 400
      else if IpDetection.store_up amb then 200 else 500) /\
   (status (fst signup) <> 200 -> snd signup = s)).
Proof.
  cbn zeta.
  rewrite handleCheckIPBan_run, handleCheckIPLimit_run,
    handleUpdateUserIPLogin_run.
  unfold IpDetection.handleRecordUserIP, IpDetection.write.
  destruct (Js.falsy_string (IpDetection.ipAddress req));
    destruct (Js.falsy_string (IpDetection.userId req));
    destruct (Js.falsy_number (IpDetection.maxAccounts req));
    destruct (IpDetection.store_up amb); cbn;
    repeat split; try reflexivity; intros H; try reflexivity;
    exfalso; apply H; reflexivity.
Qed.

Lemma guard_statuses_witness :
  snd (IpDetection.handleRecordUserIP
         (IpDetection.mkAmbient (fun _ => 50) "ip-doc-0009" false)
         (Scenario.signup "user-0009" "1.2.3.4")
         (Sample.guard_store Sample.two_accounts))
  = Sample.guard_store Sample.two_accounts.
Proof.
  apply (proj2 (proj2 (proj2 (proj2 (guard_statuses
           (IpDetection.mkAmbient (fun _ => 50) "ip-doc-0009" false)
           (Scenario.signup "user-0009" "1.2.3.4")
           (Sample.guard_store Sample.two_accounts)))))).
  vm_compute. discriminate.
Defined.
